(** * Pluvia client: token lifecycle and authenticated requests

    A shallow embedding of [mle-norus-pluvia/__init__.py]: the
    [authenticate] function with its four nested helpers, the two request
    functions and the identifier lookup, over an explicit world (token
    files, clock, remote server, module globals) threaded through a small
    state-and-exception monad. The two statements the module runs when it
    is imported (a call of [authenticate] and a [print]) are calls of the
    functions below and are not repeated here. *)

From Stdlib Require Import ZArith String Ascii List Bool Lia.
From stdpp Require Import base strings gmap.
Import ListNotations.

Set Warnings "-register-all".

Local Open Scope string_scope.
Local Open Scope list_scope.
Local Open Scope Z_scope.

(** ** Python values

    Everything the module handles comes out of [json.loads] or is built
    from string literals, so a JSON tree is the value type; [JNull] is
    Python's [None]. A [dict] keeps insertion order and has unique keys:
    an association list read by first match. Numbers only matter here
    through their truth value. *)

Inductive json : Type :=
| JNull
| JBool (b : bool)
| JNum (n : Z)
| JStr (s : string)
| JArr (items : list json)
| JObj (fields : list (string * json)).

(** The exceptions the module can let escape. [HTTPError] is the one
    [raise_for_status] raises and carries the status code;
    [StopIteration] is what [next] raises on an exhausted generator;
    [FileNotFoundError] and [PermissionError] are the [OSError]s of [open];
    [UnicodeDecodeError] is raised when bytes are read as text and do not
    decode. *)
Inductive exn : Type :=
| FileNotFoundError
| PermissionError
| UnicodeDecodeError
| JSONDecodeError
| KeyError (key : string)
| TypeError
| ValueError
| HTTPError (status : Z)
| ConnectionError
| StopIteration.

Definition result (A : Type) : Type := exn + A.

(** Python truth value, as used by [if x] and [not x]. *)
Definition truthy (v : json) : bool :=
  match v with
  | JNull => false
  | JBool b => b
  | JNum n => negb (n =? 0)
  | JStr s => negb (String.eqb s "")
  | JArr items => match items with [] => false | _ => true end
  | JObj fields => match fields with [] => false | _ => true end
  end.

(** Truth value of an [Optional[str]] argument. *)
Definition truthy_str (s : option string) : bool :=
  match s with
  | Some s => negb (String.eqb s "")
  | None => false
  end.

Fixpoint dict_get (fields : list (string * json)) (key : string) : option json :=
  match fields with
  | [] => None
  | (k, v) :: rest => if String.eqb k key then Some v else dict_get rest key
  end.

(** [v[key]] for a string key: only a dict can answer; a missing key is a
    [KeyError], any other value a [TypeError]. *)
Definition subscript (v : json) (key : string) : result json :=
  match v with
  | JObj fields =>
      match dict_get fields key with
      | Some x => inr x
      | None => inl (KeyError key)
      end
  | _ => inl TypeError
  end.

(** [v == s] for a string [s]: values of another type compare unequal. *)
Definition eq_str (v : json) (s : string) : bool :=
  match v with
  | JStr t => String.eqb t s
  | _ => false
  end.

(** [prefix + v] for a string literal [prefix]. *)
Definition str_add (prefix : string) (v : json) : result string :=
  match v with
  | JStr s => inr (String.append prefix s)
  | _ => inl TypeError
  end.

(** What [for i in v] yields: the items of a list, the keys of a dict, the
    characters of a string. *)
Fixpoint chars (s : string) : list json :=
  match s with
  | EmptyString => []
  | String c rest => JStr (String c EmptyString) :: chars rest
  end.

Definition iterate (v : json) : result (list json) :=
  match v with
  | JArr items => inr items
  | JObj fields => inr (map (fun kv => JStr (fst kv)) fields)
  | JStr s => inr (chars s)
  | _ => inl TypeError
  end.

(** ** Content

    The content of a file or of a response is one of three things: bytes
    that do not decode as text, kept as they are; text that is not a JSON
    document, kept as it is; a JSON document, represented by the value it
    decodes to (its layout is not modelled, so [json.dump] of a decoded
    value writes a document that decodes to the same value). Text is
    UTF-8 without a byte order mark, as [json.dump] writes it, so that
    reading a file as text and then parsing it, and parsing the bytes of a
    response, fail or succeed alike. *)
Inductive text : Type :=
| Binary (bytes : list Byte.byte)
| NotJson (s : string)
| JsonText (v : json).

(** [json.loads] on a content: bytes are decoded first, then the text is
    parsed. *)
Definition json_loads (t : text) : result json :=
  match t with
  | JsonText v => inr v
  | NotJson _ => inl JSONDecodeError
  | Binary _ => inl UnicodeDecodeError
  end.

(** ** Time

    Both datetimes compared by [is_valid_token] carry [timezone.utc], so
    Python compares them field by field, most significant first. *)
Record datetime : Type := mk_datetime {
  year : Z; month : Z; day : Z;
  hour : Z; minute : Z; second : Z; microsecond : Z
}.

Definition lex (c : comparison) (rest : comparison) : comparison :=
  match c with
  | Eq => rest
  | _ => c
  end.

Definition dt_compare (a b : datetime) : comparison :=
  lex (year a ?= year b)
  (lex (month a ?= month b)
  (lex (day a ?= day b)
  (lex (hour a ?= hour b)
  (lex (minute a ?= minute b)
  (lex (second a ?= second b)
       (microsecond a ?= microsecond b)))))).

(** [a > b] *)
Definition dt_gt (a b : datetime) : bool :=
  match dt_compare a b with
  | Gt => true
  | _ => false
  end.

(** What a [datetime] object can hold: a date of the proleptic Gregorian
    calendar in years 1 to 9999 and a time of day to the microsecond. *)
Definition is_leap (y : Z) : bool :=
  (y mod 4 =? 0) && (negb (y mod 100 =? 0) || (y mod 400 =? 0)).

Definition days_in_month (y m : Z) : Z :=
  if m =? 2 then (if is_leap y then 29 else 28)
  else if (m =? 4) || (m =? 6) || (m =? 9) || (m =? 11) then 30
  else 31.

Definition well_formed (d : datetime) : bool :=
  (1 <=? year d) && (year d <=? 9999)
  && (1 <=? month d) && (month d <=? 12)
  && (1 <=? day d) && (day d <=? days_in_month (year d) (month d))
  && (0 <=? hour d) && (hour d <? 24)
  && (0 <=? minute d) && (minute d <? 60)
  && (0 <=? second d) && (second d <? 60)
  && (0 <=? microsecond d) && (microsecond d <? 1000000).

(** The instant a UTC datetime denotes, in microseconds since
    0001-01-01T00:00:00Z, by the day count of [datetime.toordinal]. *)
Definition days_before_year (y : Z) : Z :=
  let y' := y - 1 in y' * 365 + y' / 4 - y' / 100 + y' / 400.

Definition days_before_month (y m : Z) : Z :=
  (if m =? 1 then 0 else if m =? 2 then 31 else if m =? 3 then 59
   else if m =? 4 then 90 else if m =? 5 then 120 else if m =? 6 then 151
   else if m =? 7 then 181 else if m =? 8 then 212 else if m =? 9 then 243
   else if m =? 10 then 273 else if m =? 11 then 304 else 334)
  + (if (2 <? m) && is_leap y then 1 else 0).

Definition ordinal (d : datetime) : Z :=
  days_before_year (year d) + days_before_month (year d) (month d) + day d.

Definition instant (d : datetime) : Z :=
  (((ordinal d * 24 + hour d) * 60 + minute d) * 60 + second d) * 1000000
  + microsecond d.

(** ** Reference lists

    An entry of a reference list as the API serves it (the id a string
    or a number), and the JSON object it arrives as. *)
Record entry : Type := mk_entry {
  entry_id : json;
  entry_descricao : string
}.

Definition entry_json (e : entry) : json :=
  JObj [("id", entry_id e); ("descricao", JStr (entry_descricao e))].

(** ** HTTP *)

Inductive http_method : Type := GET | POST.

(** The [verify] keyword of [requests]: a boolean, or the path of a CA
    bundle. *)
Inductive verify_val : Type :=
| VBool (b : bool)
| VBundle (path : string).

Definition truthy_verify (v : option verify_val) : bool :=
  match v with
  | Some (VBool b) => b
  | Some (VBundle p) => negb (String.eqb p "")
  | None => false
  end.

Definition headers_t : Type := list (string * string).

Definition truthy_headers (h : option headers_t) : bool :=
  match h with
  | Some (_ :: _) => true
  | _ => false
  end.

(** One call of [requests.post] or [requests.get] with the keyword
    arguments the module passes ([rq_json] is [JNull] when no [json]
    keyword is given, which is also what [json = None] means). *)
Record request : Type := mk_request {
  rq_method : http_method;
  rq_url : string;
  rq_headers : headers_t;
  rq_json : json;
  rq_verify : verify_val
}.

Record response : Type := mk_response {
  status_code : Z;
  content : text
}.

(** ** The world

    [files], [sent], [written] and the two module globals change as the
    code runs; the clock reading and the remote server are given, and so
    is [open_error]: the [OSError] that opening a path for writing raises,
    if any (a missing directory, a path without permission). A file that
    exists can be opened for reading. A throw leaves the world as it was
    at the point of the throw. *)
Record World : Type := mk_World {
  files : gmap string text;
  open_error : string -> option exn;
  utcnow : datetime;
  remote : request -> result response;
  sent : list request;
  written : list (string * text);
  access_token : json;
  login_data : json
}.

Definition M (A : Type) : Type := World -> result A * World.

Definition ret {A} (a : A) : M A := fun w => (inr a, w).
Definition raise {A} (e : exn) : M A := fun w => (inl e, w).
Definition bind {A B} (m : M A) (k : A -> M B) : M B :=
  fun w =>
    match m w with
    | (inr a, w') => k a w'
    | (inl e, w') => (inl e, w')
    end.
Definition lift {A} (r : result A) : M A :=
  match r with
  | inr a => ret a
  | inl e => raise e
  end.

Declare Scope py_scope.
Delimit Scope py_scope with py.
Notation "'let!' x ':=' m 'in' k" := (bind m (fun x => k))
  (at level 10, x name, m at level 100, k at level 200) : py_scope.
Notation "'do!' m 'in' k" := (bind m (fun _ => k))
  (at level 10, m at level 100, k at level 200) : py_scope.
Local Open Scope py_scope.

(** [path.exists()] *)
Definition path_exists (path : string) : M bool :=
  fun w => (inr (bool_decide (is_Some (files w !! path))), w).

(** [open(path, '+r')] and [file.read()]: the file is read as text, so
    bytes that do not decode make the read throw. *)
Definition read_file (path : string) : M text :=
  fun w =>
    match files w !! path with
    | Some (Binary _) => (inl UnicodeDecodeError, w)
    | Some t => (inr t, w)
    | None => (inl FileNotFoundError, w)
    end.

(** [open(path, 'w')] and the writes that follow: opening may throw;
    when it does not, it truncates, and the whole content is written. *)
Definition write_file (path : string) (t : text) : M unit :=
  fun w =>
    match open_error w path with
    | Some e => (inl e, w)
    | None =>
        (inr tt,
         mk_World (<[path := t]> (files w)) (open_error w) (utcnow w)
                  (remote w) (sent w) (written w ++ [(path, t)])
                  (access_token w) (login_data w))
    end.

(** [dt.datetime.now(timezone.utc)] *)
Definition datetime_now : M datetime := fun w => (inr (utcnow w), w).

(** A call into [requests]: the request is recorded, the server answers
    or the transport throws. *)
Definition requests_call (rq : request) : M response :=
  fun w =>
    (remote w rq,
     mk_World (files w) (open_error w) (utcnow w) (remote w)
              (sent w ++ [rq]) (written w) (access_token w) (login_data w)).

(** [resp.raise_for_status()]: client and server error statuses throw. *)
Definition raise_for_status (resp : response) : M unit :=
  if (400 <=? status_code resp) && (status_code resp <? 600)
  then raise (HTTPError (status_code resp))
  else ret tt.

Definition get_access_token : M json := fun w => (inr (access_token w), w).
Definition get_login_data : M json := fun w => (inr (login_data w), w).
Definition set_access_token (v : json) : M unit :=
  fun w =>
    (inr tt,
     mk_World (files w) (open_error w) (utcnow w) (remote w) (sent w)
              (written w) v (login_data w)).
Definition set_login_data (v : json) : M unit :=
  fun w =>
    (inr tt,
     mk_World (files w) (open_error w) (utcnow w) (remote w) (sent w)
              (written w) (access_token w) v).

Definition BASE_URL : string := "https://api.pluvia.app".

(** The requests a computation sends, and what it writes, from a given
    world. *)
Definition issued {A} (m : M A) (w : World) : list request :=
  skipn (length (sent w)) (sent (snd (m w))).

Definition wrote {A} (m : M A) (w : World) : list (string * text) :=
  skipn (length (written w)) (written (snd (m w))).

(** ** A reading of the timestamp format

    The module leaves parsing to [datetime.strptime]; the development is
    parametric in it. To run the model on concrete records, this parser
    reads the zero-padded form [YYYY-MM-DDTHH:MM:SSZ] and rejects
    everything else. *)
Definition digit (c : ascii) : option Z :=
  let n := Z.of_N (N_of_ascii c) in
  if (48 <=? n) && (n <=? 57) then Some (n - 48) else None.

Fixpoint number (cs : list ascii) (acc : Z) : option Z :=
  match cs with
  | [] => Some acc
  | c :: rest =>
      match digit c with
      | Some d => number rest (10 * acc + d)
      | None => None
      end
  end.

Definition strptime_utc (s : string) : option datetime :=
  match list_ascii_of_string s with
  | [y1; y2; y3; y4; c1; m1; m2; c2; d1; d2; c3;
     h1; h2; c4; n1; n2; c5; s1; s2; c6] =>
      if Ascii.eqb c1 "-" && Ascii.eqb c2 "-" && Ascii.eqb c3 "T"
         && Ascii.eqb c4 ":" && Ascii.eqb c5 ":" && Ascii.eqb c6 "Z"
      then
        match number [y1; y2; y3; y4] 0, number [m1; m2] 0,
              number [d1; d2] 0, number [h1; h2] 0,
              number [n1; n2] 0, number [s1; s2] 0 with
        | Some y, Some m, Some d, Some h, Some n, Some sec =>
            let t := mk_datetime y m d h n sec 0 in
            if well_formed t then Some t else None
        | _, _, _, _, _, _ => None
        end
      else None
  | _ => None
  end.

(** Joining two path segments the POSIX way: an absolute second segment
    wins. *)
Definition join_path (a b : string) : string :=
  match b with
  | String "/" _ => b
  | _ => String.append a (String.append "/" b)
  end.

(** ** Sample worlds

    A clock reading, credential records, a reference list, servers and
    stores, for running the model. *)
Definition noon : datetime := mk_datetime 2024 6 1 12 0 0 0.

Definition fresh_record : json :=
  JObj [("access_token", JStr "tok-cached");
        ("expires", JStr "2030-01-01T00:00:00Z")].

Definition stale_record : json :=
  JObj [("access_token", JStr "tok-old");
        ("expires", JStr "2020-01-01T00:00:00Z")].

Definition new_record : json :=
  JObj [("access_token", JStr "tok-new");
        ("expires", JStr "2031-01-01T00:00:00Z")].

Definition modes : json :=
  JArr [JObj [("id", JStr "1"); ("descricao", JStr "Diario")];
        JObj [("id", JStr "2"); ("descricao", JStr "Mensal")];
        JObj [("id", JStr "3"); ("descricao", JStr "Mensal")]].

(** Grants a token to whatever is posted and serves the reference list. *)
Definition accepting (rq : request) : result response :=
  match rq_method rq with
  | POST => inr (mk_response 200 (JsonText new_record))
  | GET => inr (mk_response 200 (JsonText modes))
  end.

(** Answers every token request with 401. *)
Definition rejecting (rq : request) : result response :=
  match rq_method rq with
  | POST => inr (mk_response 401 (NotJson "Unauthorized"))
  | GET => inr (mk_response 200 (JsonText modes))
  end.

Definition sample_dir : string := "/opt/pluvia".
Definition sample_path : string := "/opt/pluvia/.pluvia".

(** The directory [/missing] does not exist: no file can be opened for
    writing in it. Every other path can. *)
Definition missing_dir (path : string) : option exn :=
  if String.prefix "/missing/" path then Some FileNotFoundError else None.

(** A world at process start: nothing sent, nothing written, both globals
    [None]. *)
Definition start (store : gmap string text)
    (server : request -> result response) : World :=
  mk_World store missing_dir noon server [] [] JNull JNull.

Definition no_store : gmap string text := ∅.
Definition fresh_store : gmap string text :=
  {[ sample_path := JsonText fresh_record ]}.
Definition stale_store : gmap string text :=
  {[ sample_path := JsonText stale_record ]}.

(** Records a server may grant or a token file may hold that the module
    does not expect: no [access_token], a numeric [access_token], no
    [expires]. *)
Definition tokenless_record : json :=
  JObj [("expires", JStr "2031-01-01T00:00:00Z")].

Definition numeric_record : json :=
  JObj [("access_token", JNum 7);
        ("expires", JStr "2031-01-01T00:00:00Z")].


(** Grants the given record to whatever is posted and serves the
    reference list. *)
Definition granting (record : json) (rq : request) : result response :=
  match rq_method rq with
  | POST => inr (mk_response 200 (JsonText record))
  | GET => inr (mk_response 200 (JsonText modes))
  end.

(** Cannot be reached. *)
Definition unreachable (rq : request) : result response :=
  inl ConnectionError.

(** Answers every request with 200 and a page that is not JSON. *)
Definition garbled (rq : request) : result response :=
  inr (mk_response 200 (NotJson "<html>Service unavailable</html>")).

(** The bytes of [Diário] in Latin-1, which do not decode as UTF-8, and a
    server that answers every request with them. *)
Definition latin1_bytes : list Byte.byte :=
  [Byte.x44; Byte.x69; Byte.xe1; Byte.x72; Byte.x69; Byte.x6f].

Definition mojibake (rq : request) : result response :=
  inr (mk_response 200 (Binary latin1_bytes)).

(** Grants a token and serves an archive, a body that is not text. *)
Definition zip_bytes : list Byte.byte :=
  [Byte.x50; Byte.x4b; Byte.x03; Byte.x04; Byte.xff; Byte.xfe].

Definition archive (rq : request) : result response :=
  match rq_method rq with
  | POST => inr (mk_response 200 (JsonText new_record))
  | GET => inr (mk_response 200 (Binary zip_bytes))
  end.

(** Grants a token and knows no other endpoint. *)
Definition missing (rq : request) : result response :=
  match rq_method rq with
  | POST => inr (mk_response 200 (JsonText new_record))
  | GET => inr (mk_response 404 (NotJson "Not Found"))
  end.

Definition numeric_store : gmap string text :=
  {[ sample_path := JsonText numeric_record ]}.

(** A world later in the process: an earlier login left its data and its
    token in the globals, and the stored record has expired since. *)
Definition miguel_login : json :=
  JObj [("username", JStr "miguel"); ("password", JStr "secret")].

Definition later (server : request -> result response) : World :=
  mk_World stale_store missing_dir noon server [] []
           (JStr "tok-old") miguel_login.

(** ** The module *)

Section Pluvia.

(** Three things the module takes from the standard library and from where
    it is installed:
    [strptime s] is
    [dt.datetime.strptime(s, '%Y-%m-%dT%H:%M:%SZ').replace(tzinfo = timezone.utc)],
    [None] when it raises [ValueError];
    [Path a b] is [pathlib.Path(a, b)];
    [SCRIPT_DIR] is the directory of the module's file. *)
Variable strptime : string -> option datetime.
Variable Path : string -> string -> string.
Variable SCRIPT_DIR : string.

Definition TOKEN_FILEPATH : string := Path SCRIPT_DIR ".pluvia".

(** [dt.datetime.strptime(v, ...)] on a value: a string is parsed,
    anything else is a [TypeError]. *)
Definition parse_expires (v : json) : result datetime :=
  match v with
  | JStr s =>
      match strptime s with
      | Some d => inr d
      | None => inl ValueError
      end
  | _ => inl TypeError
  end.

Definition find_token (token_filepath : string) : M json :=
  let! present := path_exists token_filepath in
  if present then
    let! t := read_file token_filepath in
    lift (json_loads t)
  else
    ret JNull.

Definition is_valid_token (token : json) : M bool :=
  if truthy token then
    let! expires := lift (subscript token "expires") in
    let! dt_to_expire := lift (parse_expires expires) in
    let! dt_now := datetime_now in
    ret (dt_gt dt_to_expire dt_now)
  else
    ret false.

Definition refresh_token (_data : json) (headers : headers_t)
    (verify : verify_val) : M json :=
  let endpoint := "/v2/token" in
  let! resp_token :=
    requests_call (mk_request POST (String.append BASE_URL endpoint)
                              headers _data verify) in
  do! raise_for_status resp_token in
  lift (json_loads (content resp_token)).

Definition save_token (token : json) (token_filepath : string) : M unit :=
  write_file token_filepath (JsonText token).

(** [if not verify: verify = True] *)
Definition default_verify (verify : option verify_val) : verify_val :=
  match verify with
  | Some v => if truthy_verify verify then v else VBool true
  | None => VBool true
  end.

(** [if not _data and _username and _password: _data = {...}] *)
Definition login_payload (_username _password : option string)
    (_data : json) : json :=
  match _username, _password with
  | Some u, Some p =>
      if negb (truthy _data) && truthy_str _username && truthy_str _password
      then JObj [("username", JStr u); ("password", JStr p)]
      else _data
  | _, _ => _data
  end.

(** [if not headers: headers = {...}] *)
Definition default_headers (headers : option headers_t) : headers_t :=
  match headers with
  | Some h =>
      if truthy_headers headers then h
      else [("content-type", "application/json"); ("accept", "*/*")]
  | None => [("content-type", "application/json"); ("accept", "*/*")]
  end.

(** [if not token_filepath: token_filepath = TOKEN_FILEPATH]; a [Path] is
    always true. *)
Definition default_path (token_filepath : option string) : string :=
  match token_filepath with
  | Some p => p
  | None => TOKEN_FILEPATH
  end.

(** The function has no [return] statement: a call that completes
    evaluates to [None]. *)
Definition authenticate
    (_username _password : option string) (_data : json)
    (headers : option headers_t) (verify : option verify_val)
    (token_filepath : option string) : M json :=
  let _data := login_payload _username _password _data in
  let headers := default_headers headers in
  let verify := default_verify verify in
  let token_filepath := default_path token_filepath in
  let! token := find_token token_filepath in
  let! valid := is_valid_token token in
  let! token :=
    (if negb valid then
       let! token := refresh_token _data headers verify in
       do! save_token token token_filepath in
       ret token
     else
       ret token) in
  let! tok := lift (subscript token "access_token") in
  do! set_access_token tok in
  do! set_login_data _data in
  ret JNull.

(** [authenticate(_data = login_data)], the first statement of both
    request functions: the global is read and passed back in. *)
Definition reauthenticate : M json :=
  let! ld := get_login_data in
  authenticate None None ld None None None.

(** The header dict both request functions build from the global
    [access_token]. *)
Definition bearer_headers : M headers_t :=
  let! tok := get_access_token in
  let! auth := lift (str_add "Bearer " tok) in
  ret [("Authorization", auth); ("Content-Type", "application/json")].

(** [if not headers: headers = {'Authorization': ..., ...}], the same
    three lines in both request functions. *)
Definition request_headers (headers : option headers_t) : M headers_t :=
  match headers with
  | Some h => if truthy_headers headers then ret h else bearer_headers
  | None => bearer_headers
  end.

Definition request_info_from_api
    (endpoint : option string) (headers : option headers_t)
    (verify : option verify_val) : M json :=
  do! reauthenticate in
  match endpoint with
  | Some ep =>
      if truthy_str endpoint then
        let! headers := request_headers headers in
        let verify := default_verify verify in
        let! response :=
          requests_call (mk_request GET (String.append BASE_URL ep)
                                    headers JNull verify) in
        do! raise_for_status response in
        lift (json_loads (content response))
      else ret JNull
  | None => ret JNull
  end.

(** [requests.get] is called without [stream = True], so the whole body
    has arrived when it returns: the chunks that the loop over
    [iter_content] writes are the content of the response, in order. *)
Definition request_file_from_api
    (endpoint : option string) (headers : option headers_t)
    (verify : option verify_val) (save_it : option bool)
    (filename filepath : option string) : M json :=
  do! reauthenticate in
  match endpoint with
  | Some ep =>
      if truthy_str endpoint then
        let! headers := request_headers headers in
        let verify := default_verify verify in
        let! response :=
          requests_call (mk_request GET (String.append BASE_URL ep)
                                    headers JNull (VBool true)) in
        do! raise_for_status response in
        match save_it with
        | Some true =>
            match filepath, filename with
            | Some d, Some f =>
                do! write_file (Path d f) (content response) in ret JNull
            | _, _ => raise TypeError
            end
        | _ => ret JNull
        end
      else ret JNull
  | None => ret JNull
  end.

(** [next(i['id'] for i in list_dict if i['descricao'] == this_name)]
    over the items the iteration yields. *)
Fixpoint first_id (this_name : string) (items : list json) : result json :=
  match items with
  | [] => inl StopIteration
  | i :: rest =>
      match subscript i "descricao" with
      | inl e => inl e
      | inr d =>
          if eq_str d this_name then subscript i "id"
          else first_id this_name rest
      end
  end.

Definition get_id (this_name : string) (list_dict : json) : result json :=
  match iterate list_dict with
  | inl e => inl e
  | inr items => first_id this_name items
  end.

Definition fetch_ids (endpoint : string) : M json :=
  request_info_from_api (Some endpoint) None None.

Definition get_id_of_item (item_name : string) (endpoint : string) : M json :=
  let! list_dict := fetch_ids endpoint in
  lift (get_id item_name list_dict).

Definition get_id_of_mode (mode : string) : M json :=
  get_id_of_item mode "/v2/valoresParametros/modos".

Definition get_id_of_precipitation_source (precipitation_source : string)
    : M json :=
  get_id_of_item precipitation_source "/v2/valoresParametros/mapas".

Definition get_id_of_forecast_model (forecast_model : string) : M json :=
  get_id_of_item forecast_model "/v2/valoresParametros/modelos".

(** ** Vocabulary of the properties *)

(** What [authenticate] finds in the store: the record is loaded and
    judged, nothing else. *)
Definition cache_check (token_filepath : string) : M bool :=
  let! token := find_token token_filepath in
  is_valid_token token.

(** The one request [refresh_token] sends. *)
Definition token_request (_data : json) (headers : headers_t)
    (verify : verify_val) : request :=
  mk_request POST "https://api.pluvia.app/v2/token" headers _data verify.

(** What [authenticate] makes of the server's answer to the token
    request, when it has to refresh; [denied] is what opening the token
    file for writing raises, if anything. *)
Definition refresh_outcome (answer : result response)
    (denied : option exn) : result json :=
  match answer with
  | inl e => inl e
  | inr resp =>
      if (400 <=? status_code resp) && (status_code resp <? 600)
      then inl (HTTPError (status_code resp))
      else
        match json_loads (content resp) with
        | inl e => inl e
        | inr token =>
            match denied with
            | Some e => inl e
            | None =>
                match subscript token "access_token" with
                | inl e => inl e
                | inr _ => inr JNull
                end
            end
        end
  end.

(** The record a refresh writes to the token file, if it gets that far:
    the decoded answer, whether or not it holds an access token. *)
Definition refresh_record (answer : result response)
    (denied : option exn) : option json :=
  match answer, denied with
  | inr resp, None =>
      if (400 <=? status_code resp) && (status_code resp <? 600)
      then None
      else
        match json_loads (content resp) with
        | inl _ => None
        | inr token => Some token
        end
  | _, _ => None
  end.

(** The one request a request function sends for its endpoint. *)
Definition data_request (endpoint : string) (headers : headers_t)
    (verify : verify_val) : request :=
  mk_request GET (String.append BASE_URL endpoint) headers JNull verify.

(** The requests a request function sends once [reauthenticate] is
    through: none if that threw, if the endpoint is empty or if no header
    dict could be built, one otherwise. *)
Definition data_requests (endpoint : option string)
    (headers : option headers_t) (verify : verify_val)
    (authenticated : result json * World) : list request :=
  match authenticated, endpoint with
  | (inr _, w1), Some ep =>
      if truthy_str endpoint then
        match fst (request_headers headers w1) with
        | inr hs => [data_request ep hs verify]
        | inl _ => []
        end
      else []
  | _, _ => []
  end.

(** What [authenticate] evaluates to when the stored record is still
    valid: the record only has to hold an access token. *)
Definition cached_outcome (token_filepath : string) (w : World)
    : result json :=
  match fst (find_token token_filepath w) with
  | inl e => inl e
  | inr token =>
      match subscript token "access_token" with
      | inl e => inl e
      | inr _ => inr JNull
      end
  end.

(** ** The order on datetimes

    Comparing two well-formed datetimes field by field is comparing the
    instants they denote. *)

Lemma lex_assoc a b c : lex (lex a b) c = lex a (lex b c).
Proof using. destruct a; reflexivity. Qed.

Lemma lex_radix q1 q2 r1 r2 B :
  0 <= r1 < B -> 0 <= r2 < B ->
  lex (q1 ?= q2) (r1 ?= r2) = (q1 * B + r1 ?= q2 * B + r2).
Proof using.
  intros H1 H2. destruct (Z.compare_spec q1 q2) as [->|Hlt|Hgt]; simpl.
  - symmetry. apply Z.add_compare_mono_l.
  - symmetry. apply Z.compare_lt_iff. nia.
  - symmetry. apply Z.compare_gt_iff. nia.
Qed.

Lemma leap_extra y :
  days_before_year (y + 1)
  = days_before_year y + 365 + (if is_leap y then 1 else 0).
Proof using.
  clear strptime Path SCRIPT_DIR.
  unfold days_before_year, is_leap. cbv zeta.
  replace (y + 1 - 1) with y by lia.
  destruct (y mod 4 =? 0) eqn:E4; destruct (y mod 100 =? 0) eqn:E100;
    destruct (y mod 400 =? 0) eqn:E400; simpl;
    rewrite ?Z.eqb_eq, ?Z.eqb_neq in E4, E100, E400;
    Z.to_euclidean_division_equations; lia.
Qed.

Lemma days_before_year_mono y1 y2 :
  y1 <= y2 -> days_before_year y1 <= days_before_year y2.
Proof using.
  clear strptime Path SCRIPT_DIR.
  unfold days_before_year. cbv zeta. intros H.
  Z.to_euclidean_division_equations; lia.
Qed.

Ltac calc :=
  cbv beta iota delta [Z.eqb Z.ltb Z.compare Pos.eqb Pos.compare
                       Pos.compare_cont andb orb negb].

Lemma month_cases m :
  1 <= m <= 12 ->
  m = 1 \/ m = 2 \/ m = 3 \/ m = 4 \/ m = 5 \/ m = 6 \/ m = 7 \/ m = 8
  \/ m = 9 \/ m = 10 \/ m = 11 \/ m = 12.
Proof using. lia. Qed.

Lemma day_of_year_bounds y m d :
  1 <= m <= 12 -> 1 <= d <= days_in_month y m ->
  1 <= days_before_month y m + d <= 365 + (if is_leap y then 1 else 0).
Proof using.
  intros Hm. unfold days_before_month, days_in_month.
  destruct (is_leap y);
    destruct (month_cases m Hm) as [->|[->|[->|[->|[->|[->|[->|[->|[->|[->|[->| ->]]]]]]]]]]];
    calc; lia.
Qed.

Lemma day_of_year_compare y m1 d1 m2 d2 :
  1 <= m1 <= 12 -> 1 <= d1 <= days_in_month y m1 ->
  1 <= m2 <= 12 -> 1 <= d2 <= days_in_month y m2 ->
  lex (m1 ?= m2) (d1 ?= d2)
  = (days_before_month y m1 + d1 ?= days_before_month y m2 + d2).
Proof using.
  intros Hm1 Hd1 Hm2 Hd2.
  destruct (Z.compare_spec m1 m2) as [->|Hlt|Hgt]; simpl; symmetry.
  - apply Z.add_compare_mono_l.
  - apply Z.compare_lt_iff. revert Hd1 Hd2 Hlt.
    unfold days_before_month, days_in_month.
    destruct (is_leap y);
      destruct (month_cases m1 Hm1) as [->|[->|[->|[->|[->|[->|[->|[->|[->|[->|[->| ->]]]]]]]]]]];
      destruct (month_cases m2 Hm2) as [->|[->|[->|[->|[->|[->|[->|[->|[->|[->|[->| ->]]]]]]]]]]];
      calc; lia.
  - apply Z.compare_gt_iff. revert Hd1 Hd2 Hgt.
    unfold days_before_month, days_in_month.
    destruct (is_leap y);
      destruct (month_cases m1 Hm1) as [->|[->|[->|[->|[->|[->|[->|[->|[->|[->|[->| ->]]]]]]]]]]];
      destruct (month_cases m2 Hm2) as [->|[->|[->|[->|[->|[->|[->|[->|[->|[->|[->| ->]]]]]]]]]]];
      calc; lia.
Qed.

Lemma ordinal_compare y1 m1 d1 y2 m2 d2 :
  1 <= m1 <= 12 -> 1 <= d1 <= days_in_month y1 m1 ->
  1 <= m2 <= 12 -> 1 <= d2 <= days_in_month y2 m2 ->
  lex (y1 ?= y2) (lex (m1 ?= m2) (d1 ?= d2))
  = (days_before_year y1 + days_before_month y1 m1 + d1
     ?= days_before_year y2 + days_before_month y2 m2 + d2).
Proof using.
  intros Hm1 Hd1 Hm2 Hd2.
  assert (B1 := day_of_year_bounds y1 m1 d1 Hm1 Hd1).
  assert (B2 := day_of_year_bounds y2 m2 d2 Hm2 Hd2).
  destruct (Z.compare_spec y1 y2) as [->|Hlt|Hgt]; simpl.
  - rewrite (day_of_year_compare y2 m1 d1 m2 d2) by assumption.
    rewrite <- !Z.add_assoc. symmetry. apply Z.add_compare_mono_l.
  - symmetry. apply Z.compare_lt_iff.
    assert (S := leap_extra y1).
    assert (Mo := days_before_year_mono (y1 + 1) y2 ltac:(lia)). lia.
  - symmetry. apply Z.compare_gt_iff.
    assert (S := leap_extra y2).
    assert (Mo := days_before_year_mono (y2 + 1) y1 ltac:(lia)). lia.
Qed.

Lemma well_formed_bounds d :
  well_formed d = true ->
  (1 <= month d <= 12) /\ (1 <= day d <= days_in_month (year d) (month d))
  /\ (0 <= hour d < 24) /\ (0 <= minute d < 60) /\ (0 <= second d < 60)
  /\ (0 <= microsecond d < 1000000).
Proof using.
  unfold well_formed. rewrite !andb_true_iff.
  rewrite !Z.leb_le, !Z.ltb_lt. lia.
Qed.

Lemma dt_compare_instant a b :
  well_formed a = true -> well_formed b = true ->
  dt_compare a b = (instant a ?= instant b).
Proof using.
  intros Ha Hb.
  apply well_formed_bounds in Ha as (Am & Ad & Ah & Ami & As & Au).
  apply well_formed_bounds in Hb as (Bm & Bd & Bh & Bmi & Bs & Bu).
  unfold dt_compare, instant, ordinal.
  rewrite <- !lex_assoc. rewrite (lex_assoc (year a ?= year b)).
  rewrite (ordinal_compare _ _ _ _ _ _ Am Ad Bm Bd).
  rewrite (lex_radix _ _ _ _ 24 Ah Bh).
  rewrite (lex_radix _ _ _ _ 60 Ami Bmi).
  rewrite (lex_radix _ _ _ _ 60 As Bs).
  rewrite (lex_radix _ _ _ _ 1000000 Au Bu).
  reflexivity.
Qed.

Lemma dt_gt_instant a b :
  well_formed a = true -> well_formed b = true ->
  dt_gt a b = (instant b <? instant a).
Proof using.
  intros Ha Hb. unfold dt_gt, Z.ltb.
  rewrite (dt_compare_instant a b Ha Hb), (Z.compare_antisym (instant a)).
  destruct (instant a ?= instant b); reflexivity.
Qed.

(** ** Loading and judging the record leave the world alone *)

Lemma find_token_run path w :
  find_token path w =
  (match files w !! path with
   | Some t => json_loads t
   | None => inr JNull
   end, w).
Proof.
  unfold find_token, bind, path_exists, read_file.
  destruct (files w !! path) as [t|] eqn:E; simpl.
  - rewrite E. destruct t; reflexivity.
  - reflexivity.
Qed.

Lemma is_valid_token_world token w : snd (is_valid_token token w) = w.
Proof.
  unfold is_valid_token, bind, lift, datetime_now, ret, raise.
  destruct (truthy token); [|reflexivity].
  destruct (subscript token "expires") as [e|x]; [reflexivity|].
  destruct (parse_expires x); reflexivity.
Qed.

Lemma is_valid_token_run token w :
  is_valid_token token w = (fst (is_valid_token token w), w).
Proof.
  rewrite <- (is_valid_token_world token w) at 3.
  destruct (is_valid_token token w); reflexivity.
Qed.

Lemma cache_check_run path w :
  cache_check path w = (fst (cache_check path w), w).
Proof.
  unfold cache_check, bind. rewrite find_token_run.
  destruct (match files w !! path with Some t => json_loads t | None => inr JNull end)
    as [e|token]; [reflexivity|].
  rewrite (is_valid_token_run token w). reflexivity.
Qed.

Lemma cache_check_inv path w (valid : bool) :
  fst (cache_check path w) = inr valid ->
  exists token,
    find_token path w = (inr token, w)
    /\ is_valid_token token w = (inr valid, w).
Proof.
  unfold cache_check, bind. rewrite find_token_run.
  destruct (match files w !! path with Some t => json_loads t | None => inr JNull end)
    as [e|token]; simpl; [discriminate|].
  intros H. exists token. split; [reflexivity|].
  rewrite (is_valid_token_run token w), H. reflexivity.
Qed.

(** ** The two ways through [authenticate] *)

Lemma authenticate_cached u p d h v tf w token :
  find_token (default_path tf) w = (inr token, w) ->
  is_valid_token token w = (inr true, w) ->
  authenticate u p d h v tf w =
  match subscript token "access_token" with
  | inl e => (inl e, w)
  | inr tok =>
      (inr JNull,
       mk_World (files w) (open_error w) (utcnow w) (remote w) (sent w)
                (written w) tok (login_payload u p d))
  end.
Proof.
  intros Hfind Hvalid. unfold authenticate, bind.
  rewrite Hfind, Hvalid. simpl.
  destruct (subscript token "access_token"); reflexivity.
Qed.

Lemma authenticate_refresh u p d h v tf w token :
  find_token (default_path tf) w = (inr token, w) ->
  is_valid_token token w = (inr false, w) ->
  authenticate u p d h v tf w =
  let rq := token_request (login_payload u p d) (default_headers h)
                          (default_verify v) in
  let w1 := mk_World (files w) (open_error w) (utcnow w) (remote w)
                     (sent w ++ [rq]) (written w)
                     (access_token w) (login_data w) in
  match remote w rq with
  | inl e => (inl e, w1)
  | inr resp =>
      if (400 <=? status_code resp) && (status_code resp <? 600)
      then (inl (HTTPError (status_code resp)), w1)
      else
        match json_loads (content resp) with
        | inl e => (inl e, w1)
        | inr fresh =>
            match open_error w (default_path tf) with
            | Some e => (inl e, w1)
            | None =>
                let store :=
                  <[default_path tf := JsonText fresh]> (files w) in
                let log :=
                  written w ++ [(default_path tf, JsonText fresh)] in
                match subscript fresh "access_token" with
                | inl e =>
                    (inl e,
                     mk_World store (open_error w) (utcnow w) (remote w)
                              (sent w ++ [rq]) log
                              (access_token w) (login_data w))
                | inr tok =>
                    (inr JNull,
                     mk_World store (open_error w) (utcnow w) (remote w)
                              (sent w ++ [rq]) log
                              tok (login_payload u p d))
                end
            end
        end
  end.
Proof.
  intros Hfind Hvalid. unfold authenticate, bind.
  rewrite Hfind, Hvalid. simpl.
  unfold refresh_token, bind, requests_call, token_request. simpl.
  destruct (remote w _) as [e|resp]; [reflexivity|].
  unfold raise_for_status.
  destruct ((400 <=? status_code resp) && (status_code resp <? 600));
    [reflexivity|].
  unfold save_token, write_file. simpl.
  destruct (content resp) as [b|t|fresh]; simpl; try reflexivity.
  destruct (open_error w (default_path tf)); simpl; [reflexivity|].
  destruct (subscript fresh "access_token"); reflexivity.
Qed.

Lemma authenticate_crash u p d h v tf w e :
  fst (cache_check (default_path tf) w) = inl e ->
  authenticate u p d h v tf w = (inl e, w).
Proof.
  unfold cache_check, authenticate, bind. rewrite find_token_run.
  destruct (match files w !! default_path tf with
            | Some t => json_loads t | None => inr JNull end)
    as [e'|token]; simpl; [congruence|].
  rewrite (is_valid_token_run token w).
  destruct (fst (is_valid_token token w)); simpl; congruence.
Qed.

(** ** What [authenticate] sends and writes *)

Lemma skipn_length_app {A} (l new : list A) :
  skipn (length l) (l ++ new) = new.
Proof. induction l as [|x l IH]; simpl; auto. Qed.

Lemma issued_intro {A} (m : M A) w new :
  sent (snd (m w)) = sent w ++ new -> issued m w = new.
Proof. unfold issued; intros ->; apply skipn_length_app. Qed.

Lemma wrote_intro {A} (m : M A) w new :
  written (snd (m w)) = written w ++ new -> wrote m w = new.
Proof. unfold wrote; intros ->; apply skipn_length_app. Qed.

Lemma authenticate_sent u p d h v tf w :
  sent (snd (authenticate u p d h v tf w)) =
  sent w ++
  match fst (cache_check (default_path tf) w) with
  | inr false =>
      [token_request (login_payload u p d) (default_headers h)
                     (default_verify v)]
  | _ => []
  end.
Proof.
  destruct (fst (cache_check (default_path tf) w)) as [e|[|]] eqn:E.
  - rewrite (authenticate_crash _ _ _ _ _ _ _ _ E). simpl.
    symmetry; apply app_nil_r.
  - destruct (cache_check_inv _ _ _ E) as (token & Hf & Hv).
    rewrite (authenticate_cached _ _ _ _ _ _ _ _ Hf Hv).
    destruct (subscript token "access_token"); simpl;
      symmetry; apply app_nil_r.
  - destruct (cache_check_inv _ _ _ E) as (token & Hf & Hv).
    rewrite (authenticate_refresh _ _ _ _ _ _ _ _ Hf Hv). cbv zeta.
    destruct (remote w _) as [e|resp]; [reflexivity|].
    destruct ((400 <=? status_code resp) && (status_code resp <? 600));
      [reflexivity|].
    destruct (json_loads (content resp)) as [e|fresh]; [reflexivity|].
    destruct (open_error w (default_path tf)); [reflexivity|].
    destruct (subscript fresh "access_token"); reflexivity.
Qed.

Lemma authenticate_issued u p d h v tf w :
  issued (authenticate u p d h v tf) w =
  match fst (cache_check (default_path tf) w) with
  | inr false =>
      [token_request (login_payload u p d) (default_headers h)
                     (default_verify v)]
  | _ => []
  end.
Proof. apply issued_intro, authenticate_sent. Qed.

Lemma authenticate_returns_None u p d h v tf w r :
  fst (authenticate u p d h v tf w) = inr r -> r = JNull.
Proof.
  destruct (fst (cache_check (default_path tf) w)) as [e|[|]] eqn:E.
  - rewrite (authenticate_crash _ _ _ _ _ _ _ _ E). discriminate.
  - destruct (cache_check_inv _ _ _ E) as (token & Hf & Hv).
    rewrite (authenticate_cached _ _ _ _ _ _ _ _ Hf Hv).
    destruct (subscript token "access_token"); simpl; congruence.
  - destruct (cache_check_inv _ _ _ E) as (token & Hf & Hv).
    rewrite (authenticate_refresh _ _ _ _ _ _ _ _ Hf Hv). cbv zeta.
    destruct (remote w _) as [e|resp]; [discriminate|].
    destruct ((400 <=? status_code resp) && (status_code resp <? 600));
      [discriminate|].
    destruct (json_loads (content resp)) as [e|fresh]; [discriminate|].
    destruct (open_error w (default_path tf)); [discriminate|].
    destruct (subscript fresh "access_token"); simpl; congruence.
Qed.

Lemma subscript_truthy token key x :
  subscript token key = inr x -> truthy token = true.
Proof.
  destruct token as [| | | | |fields]; simpl; try discriminate.
  destruct fields; simpl; [discriminate|reflexivity].
Qed.

Lemma is_valid_token_expires token s expires w :
  subscript token "expires" = inr (JStr s) ->
  strptime s = Some expires ->
  is_valid_token token w = (inr (dt_gt expires (utcnow w)), w).
Proof.
  intros Hsub Hparse. unfold is_valid_token, bind.
  rewrite (subscript_truthy _ _ _ Hsub), Hsub. simpl.
  rewrite Hparse. reflexivity.
Qed.

Lemma is_valid_token_same_clock token w w' :
  utcnow w' = utcnow w ->
  fst (is_valid_token token w') = fst (is_valid_token token w).
Proof.
  intros Hclock. unfold is_valid_token, bind, lift, datetime_now, ret, raise.
  destruct (truthy token); [|reflexivity].
  destruct (subscript token "expires") as [e|x]; [reflexivity|].
  destruct (parse_expires x); simpl; [reflexivity|].
  rewrite Hclock; reflexivity.
Qed.

(** ** The claims about [authenticate] *)

(** C4. An absent record is not valid; a record whose [expires] field
    reads as an instant strictly later than the clock's is valid; one whose
    instant is earlier than or equal to the clock's is not. In each case
    the check completes and changes nothing. *)
Theorem is_valid_token_spec (token : json) (s : string)
    (expires : datetime) (w : World) :
  subscript token "expires" = inr (JStr s) ->
  strptime s = Some expires ->
  well_formed expires = true ->
  well_formed (utcnow w) = true ->
  is_valid_token JNull w = (inr false, w)
  /\ (instant (utcnow w) < instant expires ->
      is_valid_token token w = (inr true, w))
  /\ (instant expires <= instant (utcnow w) ->
      is_valid_token token w = (inr false, w)).
Proof.
  intros Hsub Hparse Hexp Hnow. split; [reflexivity|].
  rewrite (is_valid_token_expires _ _ _ w Hsub Hparse).
  rewrite (dt_gt_instant _ _ Hexp Hnow). split; intros H.
  - apply Z.ltb_lt in H. rewrite H. reflexivity.
  - apply Z.ltb_ge in H. rewrite H. reflexivity.
Qed.

(** C5. When the stored record exists and is still valid, [authenticate]
    sends no request and writes no file, and the store is unchanged; a
    second call right after it does exactly what the first did, so it
    sends nothing either. *)
Theorem authenticate_valid_is_idempotent
    (u p : option string) (d : json) (h : option headers_t)
    (v : option verify_val) (tf : option string) (w : World) :
  fst (cache_check (default_path tf) w) = inr true ->
  issued (authenticate u p d h v tf) w = []
  /\ wrote (authenticate u p d h v tf) w = []
  /\ files (snd (authenticate u p d h v tf w)) = files w
  /\ authenticate u p d h v tf (snd (authenticate u p d h v tf w))
     = authenticate u p d h v tf w
  /\ issued (authenticate u p d h v tf)
            (snd (authenticate u p d h v tf w)) = [].
Proof.
  intros E.
  destruct (cache_check_inv _ _ _ E) as (token & Hf & Hv).
  assert (Hsame :
    authenticate u p d h v tf (snd (authenticate u p d h v tf w))
    = authenticate u p d h v tf w).
  { rewrite (authenticate_cached u p d h v tf w token Hf Hv).
    destruct (subscript token "access_token") as [e|tok] eqn:Htok; simpl.
    - rewrite (authenticate_cached u p d h v tf w token Hf Hv), Htok.
      reflexivity.
    - set (w' := mk_World _ _ _ _ _ _ _ _).
      assert (Hf' : find_token (default_path tf) w' = (inr token, w')).
      { rewrite find_token_run. rewrite find_token_run in Hf.
        injection Hf as Hf. change (files w') with (files w).
        rewrite Hf. reflexivity. }
      assert (Hv' : is_valid_token token w' = (inr true, w')).
      { rewrite is_valid_token_run.
        rewrite (is_valid_token_same_clock token w w') by reflexivity.
        rewrite Hv. reflexivity. }
      rewrite (authenticate_cached u p d h v tf w' token Hf' Hv'), Htok.
      reflexivity. }
  assert (Hissued : issued (authenticate u p d h v tf) w = []).
  { rewrite authenticate_issued, E. reflexivity. }
  repeat split.
  - exact Hissued.
  - apply wrote_intro.
    rewrite (authenticate_cached u p d h v tf w token Hf Hv).
    destruct (subscript token "access_token"); simpl;
      symmetry; apply app_nil_r.
  - rewrite (authenticate_cached u p d h v tf w token Hf Hv).
    destruct (subscript token "access_token"); reflexivity.
  - exact Hsame.
  - apply issued_intro. rewrite Hsame. symmetry; apply app_nil_r.
Qed.

(** C6. When the stored record is absent or no longer valid and the
    server answers the token request with a 4xx or 5xx status,
    [authenticate] throws the [HTTPError] of that status; the store is as
    it was, nothing has been written, and both globals keep their
    values. *)
Theorem rejected_refresh_changes_nothing
    (u p : option string) (d : json) (h : option headers_t)
    (v : option verify_val) (tf : option string) (w : World)
    (resp : response) :
  fst (cache_check (default_path tf) w) = inr false ->
  remote w (token_request (login_payload u p d) (default_headers h)
                          (default_verify v)) = inr resp ->
  400 <= status_code resp < 600 ->
  fst (authenticate u p d h v tf w) = inl (HTTPError (status_code resp))
  /\ files (snd (authenticate u p d h v tf w)) = files w
  /\ wrote (authenticate u p d h v tf) w = []
  /\ access_token (snd (authenticate u p d h v tf w)) = access_token w
  /\ login_data (snd (authenticate u p d h v tf w)) = login_data w.
Proof.
  intros E Hresp Hstatus.
  destruct (cache_check_inv _ _ _ E) as (token & Hf & Hv).
  assert (Hrun := authenticate_refresh u p d h v tf w token Hf Hv).
  cbv zeta in Hrun. rewrite Hresp in Hrun.
  assert (Hs : (400 <=? status_code resp) && (status_code resp <? 600) = true).
  { apply andb_true_intro; split; [apply Z.leb_le|apply Z.ltb_lt]; lia. }
  rewrite Hs in Hrun.
  repeat split; try (rewrite Hrun; reflexivity).
  apply wrote_intro. rewrite Hrun. simpl. symmetry; apply app_nil_r.
Qed.

(** C7. [verify = False] is treated as not given: the call is the same
    computation as the one with no [verify] at all, and every request it
    sends carries [verify = True]. *)
Theorem verify_false_is_overridden
    (u p : option string) (d : json) (h : option headers_t)
    (tf : option string) (w : World) :
  authenticate u p d h (Some (VBool false)) tf w
  = authenticate u p d h None tf w
  /\ Forall (fun rq => rq_verify rq = VBool true)
            (issued (authenticate u p d h (Some (VBool false)) tf) w)
  /\ (fst (cache_check (default_path tf) w) = inr false ->
      issued (authenticate u p d h (Some (VBool false)) tf) w
      = [token_request (login_payload u p d) (default_headers h)
                       (VBool true)]).
Proof.
  split; [reflexivity|]. rewrite authenticate_issued. split.
  - destruct (fst (cache_check (default_path tf) w)) as [e|[|]];
      repeat constructor.
  - intros ->. reflexivity.
Qed.

(** C2, as the code has it. With no usable login data and a stored record
    that is absent or no longer valid, [authenticate] checks nothing: it
    sends the token request with the login data it was given as body, and
    the answer decides the rest. A transport failure, a 4xx or 5xx status
    and a body that does not decode are thrown with nothing written;
    otherwise the decoded answer is written to the token file (or the
    [OSError] of opening it is thrown), and only then is its access token
    read: the call completes, with [None], when the answer holds one. With
    a record that is still valid the same call sends nothing, writes
    nothing, and completes when the record holds an access token. *)
Theorem authenticate_without_credentials
    (u p : option string) (d : json) (h : option headers_t)
    (v : option verify_val) (tf : option string) (w : World)
    (valid : bool) :
  truthy d = false ->
  truthy_str u && truthy_str p = false ->
  fst (cache_check (default_path tf) w) = inr valid ->
  if valid then
    issued (authenticate u p d h v tf) w = []
    /\ wrote (authenticate u p d h v tf) w = []
    /\ files (snd (authenticate u p d h v tf w)) = files w
    /\ fst (authenticate u p d h v tf w) = cached_outcome (default_path tf) w
  else
    let answer :=
      remote w (token_request d (default_headers h) (default_verify v)) in
    let denied := open_error w (default_path tf) in
    issued (authenticate u p d h v tf) w
    = [token_request d (default_headers h) (default_verify v)]
    /\ fst (authenticate u p d h v tf w) = refresh_outcome answer denied
    /\ wrote (authenticate u p d h v tf) w
       = match refresh_record answer denied with
         | Some token => [(default_path tf, JsonText token)]
         | None => []
         end
    /\ files (snd (authenticate u p d h v tf w))
       = match refresh_record answer denied with
         | Some token => <[default_path tf := JsonText token]> (files w)
         | None => files w
         end.
Proof.
  intros Hd Hup E.
  assert (Hpay : login_payload u p d = d).
  { unfold login_payload. destruct u, p; try reflexivity.
    rewrite <- andb_assoc, Hup, andb_false_r. reflexivity. }
  destruct (cache_check_inv _ _ _ E) as (token & Hf & Hv).
  rewrite authenticate_issued, E, Hpay. destruct valid.
  - assert (Hrun := authenticate_cached u p d h v tf w token Hf Hv).
    unfold cached_outcome. rewrite Hf. simpl.
    destruct (subscript token "access_token");
      (repeat split; try (rewrite Hrun; reflexivity);
       apply wrote_intro; rewrite Hrun; simpl; symmetry; apply app_nil_r).
  - assert (Hrun := authenticate_refresh u p d h v tf w token Hf Hv).
    rewrite Hpay in Hrun. cbv zeta in Hrun. cbv zeta.
    unfold refresh_outcome, refresh_record.
    destruct (remote w _) as [e|resp];
      [|destruct ((400 <=? status_code resp) && (status_code resp <? 600));
        [|destruct (json_loads (content resp)) as [e|fresh]]];
      destruct (open_error w (default_path tf)) as [e'|];
      try destruct (subscript fresh "access_token");
      (repeat split; try (rewrite Hrun; reflexivity);
       apply wrote_intro; rewrite Hrun; simpl;
       solve [reflexivity | symmetry; apply app_nil_r]).
Qed.

(** ** What the request functions send *)

Lemma request_headers_world h w : snd (request_headers h w) = w.
Proof.
  unfold request_headers, bearer_headers, bind, get_access_token, lift,
    ret, raise.
  destruct h as [[|x r]|]; simpl; try reflexivity;
    destruct (str_add "Bearer " (access_token w)); reflexivity.
Qed.

Lemma reauthenticate_run w :
  reauthenticate w = authenticate None None (login_data w) None None None w.
Proof. reflexivity. Qed.

Lemma reauthenticate_sent w :
  sent (snd (reauthenticate w)) = sent w ++ issued reauthenticate w.
Proof.
  assert (H := authenticate_sent None None (login_data w) None None None w).
  rewrite <- reauthenticate_run in H.
  rewrite (issued_intro _ _ _ H). exact H.
Qed.

Lemma request_info_sent ep h v w :
  sent (snd (request_info_from_api ep h v w)) =
  sent (snd (reauthenticate w))
  ++ data_requests ep h (default_verify v) (reauthenticate w).
Proof.
  unfold request_info_from_api, data_requests, bind at 1.
  destruct (reauthenticate w) as [[e|r] w1]; simpl;
    [symmetry; apply app_nil_r|].
  destruct ep as [ep|]; [|symmetry; apply app_nil_r].
  destruct (truthy_str (Some ep)); [|symmetry; apply app_nil_r].
  unfold bind at 1.
  rewrite (surjective_pairing (request_headers h w1)), request_headers_world.
  destruct (fst (request_headers h w1)) as [e|hs]; simpl;
    [symmetry; apply app_nil_r|].
  unfold bind, requests_call, data_request. simpl.
  destruct (remote w1 _) as [e|resp]; [reflexivity|].
  unfold raise_for_status.
  destruct ((400 <=? status_code resp) && (status_code resp <? 600));
    [reflexivity|].
  simpl. destruct (json_loads (content resp)); reflexivity.
Qed.

Lemma request_file_sent ep h v s fn fp w :
  sent (snd (request_file_from_api ep h v s fn fp w)) =
  sent (snd (reauthenticate w))
  ++ data_requests ep h (VBool true) (reauthenticate w).
Proof.
  unfold request_file_from_api, data_requests, bind at 1.
  destruct (reauthenticate w) as [[e|r] w1]; simpl;
    [symmetry; apply app_nil_r|].
  destruct ep as [ep|]; [|symmetry; apply app_nil_r].
  destruct (truthy_str (Some ep)); [|symmetry; apply app_nil_r].
  unfold bind at 1.
  rewrite (surjective_pairing (request_headers h w1)), request_headers_world.
  destruct (fst (request_headers h w1)) as [e|hs]; simpl;
    [symmetry; apply app_nil_r|].
  unfold bind, requests_call, data_request. simpl.
  destruct (remote w1 _) as [e|resp]; [reflexivity|].
  unfold raise_for_status.
  destruct ((400 <=? status_code resp) && (status_code resp <? 600));
    [reflexivity|].
  simpl. destruct s as [[|]|]; try reflexivity.
  destruct fp as [d|], fn as [f|]; try reflexivity.
  unfold write_file. simpl.
  destruct (open_error w1 (Path d f)); reflexivity.
Qed.

Lemma request_info_issued ep h v w :
  issued (request_info_from_api ep h v) w =
  issued reauthenticate w
  ++ data_requests ep h (default_verify v) (reauthenticate w).
Proof.
  apply issued_intro.
  rewrite request_info_sent, reauthenticate_sent. symmetry; apply app_assoc.
Qed.

Lemma request_file_issued ep h v s fn fp w :
  issued (request_file_from_api ep h v s fn fp) w =
  issued reauthenticate w
  ++ data_requests ep h (VBool true) (reauthenticate w).
Proof.
  apply issued_intro.
  rewrite request_file_sent, reauthenticate_sent. symmetry; apply app_assoc.
Qed.

Lemma reauthenticate_issued w :
  issued reauthenticate w =
  match fst (cache_check TOKEN_FILEPATH w) with
  | inr false =>
      [token_request (login_data w) (default_headers None) (VBool true)]
  | _ => []
  end.
Proof.
  apply issued_intro. rewrite reauthenticate_run.
  apply (authenticate_sent None None (login_data w) None None None w).
Qed.

Lemma data_requests_method ep h v a rq :
  In rq (data_requests ep h v a) ->
  exists e hs, rq = data_request e hs v
               /\ ep = Some e
               /\ fst (request_headers h (snd a)) = inr hs.
Proof.
  unfold data_requests. destruct a as [[e|r] w1]; [intros []|].
  destruct ep as [ep|]; [|intros []].
  destruct (truthy_str (Some ep)); [|intros []].
  simpl. destruct (fst (request_headers h w1)) as [e|hs]; [intros []|].
  intros [<-|[]]. eauto.
Qed.

Lemma reauthenticate_posts w rq :
  In rq (issued reauthenticate w) ->
  rq_method rq = POST /\ rq_verify rq = VBool true.
Proof.
  rewrite reauthenticate_issued. intros H.
  destruct (fst (cache_check TOKEN_FILEPATH w)) as [e|[|]];
    simpl in H; try contradiction.
  destruct H as [<-|[]]. split; reflexivity.
Qed.

(** ** The claims about the request layer *)

(** C3, as the code has it. With an empty or missing endpoint
    [request_info_from_api] is [reauthenticate] followed by [return None]:
    it returns [None] whenever the authentication completes and never
    sends a GET. What it sends is what authentication sends: nothing when
    the stored record is still valid, the token request when the record is
    absent or no longer valid. *)
Theorem request_info_without_endpoint
    (ep : option string) (h : option headers_t) (v : option verify_val)
    (w : World) :
  truthy_str ep = false ->
  request_info_from_api ep h v w
  = (match fst (reauthenticate w) with
     | inl e => inl e
     | inr _ => inr JNull
     end, snd (reauthenticate w))
  /\ issued (request_info_from_api ep h v) w
     = match fst (cache_check TOKEN_FILEPATH w) with
       | inr false =>
           [token_request (login_data w) (default_headers None) (VBool true)]
       | _ => []
       end.
Proof.
  intros Hep. split.
  - unfold request_info_from_api, bind.
    destruct (reauthenticate w) as [[e|r] w1]; simpl; [reflexivity|].
    destruct ep as [ep|]; [|reflexivity]. rewrite Hep. reflexivity.
  - rewrite request_info_issued, reauthenticate_issued.
    unfold data_requests. destruct (reauthenticate w) as [[e|r] w1];
      [apply app_nil_r|].
    destruct ep as [ep|]; [rewrite Hep|]; apply app_nil_r.
Qed.

Lemma data_requests_sent e h verify w r hs :
  truthy_str (Some e) = true ->
  fst (reauthenticate w) = inr r ->
  fst (request_headers h (snd (reauthenticate w))) = inr hs ->
  data_requests (Some e) h verify (reauthenticate w)
  = [data_request e hs verify].
Proof.
  intros He Hauth Hhs. unfold data_requests.
  destruct (reauthenticate w) as [[x|r'] w1]; simpl in *; [discriminate|].
  rewrite He, Hhs. reflexivity.
Qed.

(** C9. [request_file_from_api] does not look at the caller's [verify]:
    the call is the same computation whatever [verify] is passed, every
    request it sends carries [verify = True], and whenever it gets as far
    as its GET (the endpoint is not empty, authentication has completed
    and the header dict is there) that GET goes out, once, with
    [verify = True]. The GET of [request_info_from_api] goes out under
    the same conditions and carries the caller's [verify] after the
    default has been applied. *)
Theorem file_request_always_verifies
    (ep : option string) (h : option headers_t) (v : option verify_val)
    (s : option bool) (fn fp : option string) (w : World) (rq : request) :
  request_file_from_api ep h v s fn fp w
  = request_file_from_api ep h None s fn fp w
  /\ (In rq (issued (request_file_from_api ep h v s fn fp) w) ->
      rq_verify rq = VBool true)
  /\ (In rq (issued (request_info_from_api ep h v) w) ->
      rq_method rq = GET ->
      rq_verify rq = default_verify v)
  /\ (forall e r hs,
        ep = Some e ->
        truthy_str ep = true ->
        fst (reauthenticate w) = inr r ->
        fst (request_headers h (snd (reauthenticate w))) = inr hs ->
        issued (request_file_from_api ep h v s fn fp) w
        = issued reauthenticate w ++ [data_request e hs (VBool true)]
        /\ issued (request_info_from_api ep h v) w
           = issued reauthenticate w
             ++ [data_request e hs (default_verify v)]).
Proof.
  split; [reflexivity|]. split; [|split].
  - rewrite request_file_issued. intros [H|H]%in_app_or.
    + apply (reauthenticate_posts _ _ H).
    + apply data_requests_method in H as (e & hs & -> & _). reflexivity.
  - rewrite request_info_issued. intros [H|H]%in_app_or Hget.
    + apply reauthenticate_posts in H as [H _]. congruence.
    + apply data_requests_method in H as (e & hs & -> & _). reflexivity.
  - intros e r hs -> He Hauth Hhs.
    rewrite request_file_issued, request_info_issued.
    rewrite !(data_requests_sent e h _ w r hs He Hauth Hhs).
    split; reflexivity.
Qed.

(** C10. When the caller's header dict is not empty, the GET of either
    request function goes out with exactly that dict (given a non-empty
    endpoint and a completed authentication), whatever the global access
    token is; the dict built around [Bearer] and the global access token
    is sent only when the caller gave none, or an empty one. Any GET that
    either function sends carries one of the two, by that rule. *)
Theorem caller_headers_are_sent_as_given
    (ep : option string) (h : option headers_t) (v : option verify_val)
    (s : option bool) (fn fp : option string) (w : World) (rq : request) :
  (In rq (issued (request_info_from_api ep h v) w)
   \/ In rq (issued (request_file_from_api ep h v s fn fp) w) ->
   rq_method rq = GET ->
   match h with
   | Some (x :: rest) => rq_headers rq = x :: rest
   | _ =>
       exists tok,
         access_token (snd (reauthenticate w)) = JStr tok
         /\ rq_headers rq = [("Authorization", String.append "Bearer " tok);
                             ("Content-Type", "application/json")]
   end)
  /\ (forall e r x rest,
        ep = Some e ->
        truthy_str ep = true ->
        h = Some (x :: rest) ->
        fst (reauthenticate w) = inr r ->
        issued (request_info_from_api ep h v) w
        = issued reauthenticate w
          ++ [data_request e (x :: rest) (default_verify v)]
        /\ issued (request_file_from_api ep h v s fn fp) w
           = issued reauthenticate w
             ++ [data_request e (x :: rest) (VBool true)])
  /\ (forall e r tok,
        ep = Some e ->
        truthy_str ep = true ->
        truthy_headers h = false ->
        fst (reauthenticate w) = inr r ->
        access_token (snd (reauthenticate w)) = JStr tok ->
        issued (request_info_from_api ep h v) w
        = issued reauthenticate w
          ++ [data_request e
                [("Authorization", String.append "Bearer " tok);
                 ("Content-Type", "application/json")]
                (default_verify v)]
        /\ issued (request_file_from_api ep h v s fn fp) w
           = issued reauthenticate w
             ++ [data_request e
                   [("Authorization", String.append "Bearer " tok);
                    ("Content-Type", "application/json")]
                   (VBool true)]).
Proof.
  split; [|split].
  - intros Hin Hget.
    assert (Hdata : exists e hs verify,
               rq = data_request e hs verify
               /\ fst (request_headers h (snd (reauthenticate w))) = inr hs).
    { destruct Hin as [H|H];
        [rewrite request_info_issued in H|rewrite request_file_issued in H];
        apply in_app_or in H as [H|H];
        try (apply reauthenticate_posts in H as [H _]; congruence);
        apply data_requests_method in H as (e & hs & -> & _ & Hh); eauto. }
    destruct Hdata as (e & hs & verify & -> & Hh). simpl.
    assert (Hbearer :
      fst (bearer_headers (snd (reauthenticate w))) = inr hs ->
      exists tok,
        access_token (snd (reauthenticate w)) = JStr tok
        /\ hs = [("Authorization", String.append "Bearer " tok);
                 ("Content-Type", "application/json")]).
    { unfold bearer_headers, bind, get_access_token, lift, ret, raise.
      destruct (access_token (snd (reauthenticate w))); simpl;
        try discriminate.
      intros [= <-]. eauto. }
    destruct h as [[|x rest]|]; simpl in Hh; auto. congruence.
  - intros e r x rest -> He -> Hauth.
    rewrite request_info_issued, request_file_issued.
    rewrite !(data_requests_sent e (Some (x :: rest)) _ w r (x :: rest)
                He Hauth eq_refl).
    split; reflexivity.
  - intros e r tok -> He Hh Hauth Htok.
    assert (Hhs : fst (request_headers h (snd (reauthenticate w)))
                  = inr [("Authorization", String.append "Bearer " tok);
                         ("Content-Type", "application/json")]).
    { assert (Hb : fst (bearer_headers (snd (reauthenticate w)))
                   = inr [("Authorization", String.append "Bearer " tok);
                          ("Content-Type", "application/json")]).
      { unfold bearer_headers, bind, get_access_token, lift, ret, raise.
        rewrite Htok. reflexivity. }
      destruct h as [[|x rest]|]; simpl in *; try discriminate; exact Hb. }
    rewrite request_info_issued, request_file_issued.
    rewrite !(data_requests_sent e h _ w r _ He Hauth Hhs).
    split; reflexivity.
Qed.

(** The generator behind [get_id], on any items that all have a
    [descricao]: the first match decides. *)
Lemma first_id_find name (items : list json) :
  Forall (fun i => exists d, subscript i "descricao" = inr d) items ->
  first_id name items
  = match find (fun i => match subscript i "descricao" with
                         | inr d => eq_str d name
                         | inl _ => false
                         end) items with
    | Some i => subscript i "id"
    | None => inl StopIteration
    end.
Proof using.
  induction 1 as [|i items [d Hd] _ IH]; simpl; [reflexivity|].
  rewrite Hd. destruct (eq_str d name); [reflexivity|exact IH].
Qed.

(** C8. On a reference list, [get_id] returns the id of the first entry,
    in list order, whose [descricao] is the name, and throws
    [StopIteration] when no entry has it; [get_id_of_item] does the same
    on the list it fetched. *)
Theorem get_id_first_match
    (name : string) (es : list entry) (ep : string) (w w' : World) :
  get_id name (JArr (map entry_json es))
  = match find (fun e => String.eqb (entry_descricao e) name) es with
    | Some e => inr (entry_id e)
    | None => inl StopIteration
    end
  /\ (fetch_ids ep w = (inr (JArr (map entry_json es)), w') ->
      get_id_of_item name ep w
      = (match find (fun e => String.eqb (entry_descricao e) name) es with
         | Some e => inr (entry_id e)
         | None => inl StopIteration
         end, w')).
Proof.
  assert (Hpure :
    get_id name (JArr (map entry_json es))
    = match find (fun e => String.eqb (entry_descricao e) name) es with
      | Some e => inr (entry_id e)
      | None => inl StopIteration
      end).
  { unfold get_id. simpl.
    induction es as [|e es IH]; simpl; [reflexivity|].
    destruct (String.eqb (entry_descricao e) name); [reflexivity|exact IH]. }
  split; [exact Hpure|].
  intros Hfetch. unfold get_id_of_item, bind. rewrite Hfetch, Hpure.
  destruct (find _ es); reflexivity.
Qed.

(** ** More on [authenticate]: the refresh path *)

Lemma status_passes resp :
  status_code resp < 400 \/ 600 <= status_code resp ->
  (400 <=? status_code resp) && (status_code resp <? 600) = false.
Proof using.
  intros H. apply andb_false_iff.
  destruct H; [left; apply Z.leb_gt|right; apply Z.ltb_ge]; lia.
Qed.

Lemma authenticate_granted u p d h v tf w resp fresh :
  fst (cache_check (default_path tf) w) = inr false ->
  remote w (token_request (login_payload u p d) (default_headers h)
                          (default_verify v)) = inr resp ->
  status_code resp < 400 \/ 600 <= status_code resp ->
  content resp = JsonText fresh ->
  authenticate u p d h v tf w =
  let rq := token_request (login_payload u p d) (default_headers h)
                          (default_verify v) in
  match open_error w (default_path tf) with
  | Some e =>
      (inl e,
       mk_World (files w) (open_error w) (utcnow w) (remote w)
                (sent w ++ [rq]) (written w)
                (access_token w) (login_data w))
  | None =>
      let store := <[default_path tf := JsonText fresh]> (files w) in
      let log := written w ++ [(default_path tf, JsonText fresh)] in
      match subscript fresh "access_token" with
      | inl e =>
          (inl e,
           mk_World store (open_error w) (utcnow w) (remote w)
                    (sent w ++ [rq]) log (access_token w) (login_data w))
      | inr tok =>
          (inr JNull,
           mk_World store (open_error w) (utcnow w) (remote w)
                    (sent w ++ [rq]) log tok (login_payload u p d))
      end
  end.
Proof.
  intros E Hresp Hstatus Hcontent.
  destruct (cache_check_inv _ _ _ E) as (token & Hf & Hv).
  rewrite (authenticate_refresh u p d h v tf w token Hf Hv). cbv zeta.
  rewrite Hresp, (status_passes _ Hstatus), Hcontent. reflexivity.
Qed.

(** X1. A refresh that the server grants: one token request goes out;
    then, if the token file opens for writing, the granted record is
    written to it once and the record's access token and the login data
    go to the globals; if it does not open (its directory is missing,
    say), the call throws that [OSError] with nothing written and both
    globals as they were. *)
Theorem refresh_stores_and_publishes
    (u p : option string) (d : json) (h : option headers_t)
    (v : option verify_val) (tf : option string) (w : World)
    (resp : response) (fresh tok : json) :
  fst (cache_check (default_path tf) w) = inr false ->
  remote w (token_request (login_payload u p d) (default_headers h)
                          (default_verify v)) = inr resp ->
  status_code resp < 400 \/ 600 <= status_code resp ->
  content resp = JsonText fresh ->
  subscript fresh "access_token" = inr tok ->
  issued (authenticate u p d h v tf) w
  = [token_request (login_payload u p d) (default_headers h)
                   (default_verify v)]
  /\ match open_error w (default_path tf) with
     | None =>
         fst (authenticate u p d h v tf w) = inr JNull
         /\ wrote (authenticate u p d h v tf) w
            = [(default_path tf, JsonText fresh)]
         /\ files (snd (authenticate u p d h v tf w))
            = <[default_path tf := JsonText fresh]> (files w)
         /\ access_token (snd (authenticate u p d h v tf w)) = tok
         /\ login_data (snd (authenticate u p d h v tf w))
            = login_payload u p d
     | Some e =>
         fst (authenticate u p d h v tf w) = inl e
         /\ wrote (authenticate u p d h v tf) w = []
         /\ files (snd (authenticate u p d h v tf w)) = files w
         /\ access_token (snd (authenticate u p d h v tf w))
            = access_token w
         /\ login_data (snd (authenticate u p d h v tf w)) = login_data w
     end.
Proof.
  intros E Hresp Hstatus Hcontent Htok.
  assert (Hrun := authenticate_granted u p d h v tf w resp fresh
                    E Hresp Hstatus Hcontent).
  cbv zeta in Hrun. rewrite Htok in Hrun.
  split; [rewrite authenticate_issued, E; reflexivity|].
  destruct (open_error w (default_path tf)) as [e|];
    repeat split; try (rewrite Hrun; reflexivity);
    apply wrote_intro; rewrite Hrun; simpl;
    solve [reflexivity | symmetry; apply app_nil_r].
Qed.

(** X2. A granted record without an [access_token] is written to the
    token file all the same: when the file opens for writing, the call
    then throws on the missing key, with the old record gone and both
    globals as they were; when it does not open, the call throws that
    [OSError] and the store is as it was. *)
Theorem granted_record_without_token_is_stored
    (u p : option string) (d : json) (h : option headers_t)
    (v : option verify_val) (tf : option string) (w : World)
    (resp : response) (fresh : json) (e : exn) :
  fst (cache_check (default_path tf) w) = inr false ->
  remote w (token_request (login_payload u p d) (default_headers h)
                          (default_verify v)) = inr resp ->
  status_code resp < 400 \/ 600 <= status_code resp ->
  content resp = JsonText fresh ->
  subscript fresh "access_token" = inl e ->
  match open_error w (default_path tf) with
  | None =>
      fst (authenticate u p d h v tf w) = inl e
      /\ files (snd (authenticate u p d h v tf w)) !! default_path tf
         = Some (JsonText fresh)
      /\ access_token (snd (authenticate u p d h v tf w)) = access_token w
      /\ login_data (snd (authenticate u p d h v tf w)) = login_data w
  | Some e' =>
      fst (authenticate u p d h v tf w) = inl e'
      /\ files (snd (authenticate u p d h v tf w)) = files w
      /\ access_token (snd (authenticate u p d h v tf w)) = access_token w
      /\ login_data (snd (authenticate u p d h v tf w)) = login_data w
  end.
Proof.
  intros E Hresp Hstatus Hcontent Htok.
  assert (Hrun := authenticate_granted u p d h v tf w resp fresh
                    E Hresp Hstatus Hcontent).
  cbv zeta in Hrun. rewrite Htok in Hrun.
  destruct (open_error w (default_path tf)) as [e'|];
    repeat split; try (rewrite Hrun; reflexivity).
  rewrite Hrun. simpl. apply lookup_insert_eq.
Qed.

(** X3. A token request that the transport fails, or whose answer does
    not decode ([UnicodeDecodeError] for bytes that are not text,
    [JSONDecodeError] for text that is not JSON), makes [authenticate]
    throw that failure after the request has gone out; nothing is written
    and both globals keep their values. *)
Theorem failed_refresh_leaves_store
    (u p : option string) (d : json) (h : option headers_t)
    (v : option verify_val) (tf : option string) (w : World) (e : exn) :
  fst (cache_check (default_path tf) w) = inr false ->
  remote w (token_request (login_payload u p d) (default_headers h)
                          (default_verify v)) = inl e
  \/ (exists resp,
        remote w (token_request (login_payload u p d) (default_headers h)
                                (default_verify v)) = inr resp
        /\ (status_code resp < 400 \/ 600 <= status_code resp)
        /\ match content resp with
           | Binary _ => e = UnicodeDecodeError
           | NotJson _ => e = JSONDecodeError
           | JsonText _ => False
           end) ->
  fst (authenticate u p d h v tf w) = inl e
  /\ issued (authenticate u p d h v tf) w
     = [token_request (login_payload u p d) (default_headers h)
                      (default_verify v)]
  /\ wrote (authenticate u p d h v tf) w = []
  /\ files (snd (authenticate u p d h v tf w)) = files w
  /\ access_token (snd (authenticate u p d h v tf w)) = access_token w
  /\ login_data (snd (authenticate u p d h v tf w)) = login_data w.
Proof.
  intros E Hanswer.
  destruct (cache_check_inv _ _ _ E) as (token & Hf & Hv).
  assert (Hrun := authenticate_refresh u p d h v tf w token Hf Hv).
  cbv zeta in Hrun.
  assert (Hrun' :
    authenticate u p d h v tf w
    = (inl e,
       mk_World (files w) (open_error w) (utcnow w) (remote w)
                (sent w ++ [token_request (login_payload u p d)
                                          (default_headers h)
                                          (default_verify v)])
                (written w) (access_token w) (login_data w))).
  { destruct Hanswer as [Hremote|(resp & Hremote & Hstatus & Hcontent)];
      rewrite Hremote in Hrun; [exact Hrun|].
    rewrite (status_passes _ Hstatus) in Hrun.
    destruct (content resp) as [b|t|j]; simpl in Hrun;
      [subst e; exact Hrun|subst e; exact Hrun|contradiction]. }
  repeat split; try (rewrite Hrun'; reflexivity).
  - apply issued_intro. rewrite Hrun'. reflexivity.
  - apply wrote_intro. rewrite Hrun'. simpl. symmetry; apply app_nil_r.
Qed.

(** X4. The call that follows a granted refresh, at the same clock
    reading, is decided by the granted record alone once that record is
    in the token file: it sends nothing when the record is valid (or
    cannot be judged), and it sends the token request again when the
    server granted a record that has already expired. When the token file
    could not be opened for writing, nothing was stored and the token
    request is sent again. *)
Theorem authenticate_after_refresh
    (u p : option string) (d : json) (h : option headers_t)
    (v : option verify_val) (tf : option string) (w : World)
    (resp : response) (fresh tok : json)
    (u2 p2 : option string) (d2 : json) (h2 : option headers_t)
    (v2 : option verify_val) :
  fst (cache_check (default_path tf) w) = inr false ->
  remote w (token_request (login_payload u p d) (default_headers h)
                          (default_verify v)) = inr resp ->
  status_code resp < 400 \/ 600 <= status_code resp ->
  content resp = JsonText fresh ->
  subscript fresh "access_token" = inr tok ->
  issued (authenticate u2 p2 d2 h2 v2 tf)
         (snd (authenticate u p d h v tf w))
  = match open_error w (default_path tf) with
    | Some _ =>
        [token_request (login_payload u2 p2 d2) (default_headers h2)
                       (default_verify v2)]
    | None =>
        match fst (is_valid_token fresh w) with
        | inr false =>
            [token_request (login_payload u2 p2 d2) (default_headers h2)
                           (default_verify v2)]
        | _ => []
        end
    end.
Proof.
  intros E Hresp Hstatus Hcontent Htok.
  assert (Hrun := authenticate_granted u p d h v tf w resp fresh
                    E Hresp Hstatus Hcontent).
  cbv zeta in Hrun. rewrite Htok in Hrun.
  rewrite authenticate_issued.
  destruct (open_error w (default_path tf)) as [e|]; rewrite Hrun; simpl;
    set (w' := mk_World _ _ _ _ _ _ _ _).
  - assert (Hcheck : fst (cache_check (default_path tf) w')
                     = fst (cache_check (default_path tf) w)).
    { unfold cache_check, bind. rewrite !find_token_run.
      change (files w') with (files w).
      destruct (match files w !! default_path tf with
                | Some t => json_loads t | None => inr JNull end)
        as [e'|token]; simpl; [reflexivity|].
      rewrite (is_valid_token_run token w'), (is_valid_token_run token w).
      simpl. apply is_valid_token_same_clock. reflexivity. }
    rewrite Hcheck, E. reflexivity.
  - assert (Hcheck : fst (cache_check (default_path tf) w')
                     = fst (is_valid_token fresh w)).
    { unfold cache_check, bind. rewrite find_token_run.
      change (files w')
        with (<[default_path tf := JsonText fresh]> (files w)).
      rewrite lookup_insert_eq. simpl.
      rewrite (is_valid_token_run fresh w'). simpl.
      apply is_valid_token_same_clock. reflexivity. }
    rewrite Hcheck. reflexivity.
Qed.

(** ** More on [authenticate]: the store *)


Lemma valid_record_is_stored path w token :
  find_token path w = (inr token, w) ->
  is_valid_token token w = (inr true, w) ->
  files w !! path = Some (JsonText token).
Proof.
  rewrite find_token_run. intros Hf Hv. injection Hf as Hf.
  destruct (files w !! path) as [[b|t|j]|]; simpl in Hf; try discriminate.
  - congruence.
  - injection Hf as <-. discriminate Hv.
Qed.




(** X9. [_username] and [_password] count only when both are non-empty
    and no login data is given: otherwise the call is the same computation
    as the one without them. *)
Theorem unusable_credentials_are_ignored
    (u p : option string) (d : json) (h : option headers_t)
    (v : option verify_val) (tf : option string) (w : World) :
  truthy d = true \/ truthy_str u = false \/ truthy_str p = false ->
  authenticate u p d h v tf w = authenticate None None d h v tf w.
Proof.
  intros H.
  assert (Hpay : login_payload u p d = d).
  { unfold login_payload. destruct u as [un|]; [|reflexivity].
    destruct p as [pw|]; [|reflexivity].
    destruct H as [-> | [-> | ->]]; simpl; rewrite ?andb_false_r; reflexivity. }
  unfold authenticate. rewrite Hpay. reflexivity.
Qed.

(** X10. [authenticate] touches no file but the token file, and leaves
    the clock and the server as they are. *)
Theorem authenticate_touches_only_token_file
    (u p : option string) (d : json) (h : option headers_t)
    (v : option verify_val) (tf : option string) (w : World)
    (other : string) :
  other <> default_path tf ->
  files (snd (authenticate u p d h v tf w)) !! other = files w !! other
  /\ Forall (fun entry => fst entry = default_path tf)
            (wrote (authenticate u p d h v tf) w).
Proof.
  intros Hne.
  destruct (fst (cache_check (default_path tf) w)) as [e|[|]] eqn:E.
  - rewrite (wrote_intro _ _ []);
      rewrite (authenticate_crash _ _ _ _ _ _ _ _ E);
      [split; [reflexivity|constructor]|simpl; symmetry; apply app_nil_r].
  - destruct (cache_check_inv _ _ _ E) as (token & Hf & Hv).
    rewrite (wrote_intro _ _ []);
      rewrite (authenticate_cached _ _ _ _ _ _ _ _ Hf Hv);
      destruct (subscript token "access_token"); simpl;
      try (split; [reflexivity|constructor]);
      symmetry; apply app_nil_r.
  - destruct (cache_check_inv _ _ _ E) as (token & Hf & Hv).
    assert (Hrun := authenticate_refresh u p d h v tf w token Hf Hv).
    cbv zeta in Hrun.
    destruct (remote w _) as [e|resp];
      [rewrite (wrote_intro _ _ []); rewrite Hrun;
       [split; [reflexivity|constructor]|simpl; symmetry; apply app_nil_r]|].
    destruct ((400 <=? status_code resp) && (status_code resp <? 600));
      [rewrite (wrote_intro _ _ []); rewrite Hrun;
       [split; [reflexivity|constructor]|simpl; symmetry; apply app_nil_r]|].
    destruct (json_loads (content resp)) as [e|fresh];
      [rewrite (wrote_intro _ _ []); rewrite Hrun;
       [split; [reflexivity|constructor]|simpl; symmetry; apply app_nil_r]|].
    destruct (open_error w (default_path tf)) as [e|];
      [rewrite (wrote_intro _ _ []); rewrite Hrun;
       [split; [reflexivity|constructor]|simpl; symmetry; apply app_nil_r]|].
    rewrite (wrote_intro _ _ [(default_path tf, JsonText fresh)]);
      rewrite Hrun; destruct (subscript fresh "access_token"); simpl;
      try reflexivity;
      (split; [apply lookup_insert_ne; congruence
              |repeat constructor]).
Qed.

(** X11. Whenever [authenticate] completes, the token file holds a record
    whose [access_token] is the global [access_token], and the global
    [login_data] is the login data of this call. *)
Theorem completed_authenticate_agrees_with_store
    (u p : option string) (d : json) (h : option headers_t)
    (v : option verify_val) (tf : option string) (w : World) (r : json) :
  fst (authenticate u p d h v tf w) = inr r ->
  exists token,
    files (snd (authenticate u p d h v tf w)) !! default_path tf
    = Some (JsonText token)
    /\ subscript token "access_token"
       = inr (access_token (snd (authenticate u p d h v tf w)))
    /\ login_data (snd (authenticate u p d h v tf w)) = login_payload u p d.
Proof.
  destruct (fst (cache_check (default_path tf) w)) as [e|[|]] eqn:E.
  - rewrite (authenticate_crash _ _ _ _ _ _ _ _ E). discriminate.
  - destruct (cache_check_inv _ _ _ E) as (token & Hf & Hv).
    rewrite (authenticate_cached _ _ _ _ _ _ _ _ Hf Hv).
    destruct (subscript token "access_token") as [e|tok] eqn:Htok;
      simpl; [discriminate|]. intros _. exists token.
    rewrite (valid_record_is_stored _ _ _ Hf Hv). auto.
  - destruct (cache_check_inv _ _ _ E) as (token & Hf & Hv).
    rewrite (authenticate_refresh _ _ _ _ _ _ _ _ Hf Hv). cbv zeta.
    destruct (remote w _) as [e|resp]; [discriminate|].
    destruct ((400 <=? status_code resp) && (status_code resp <? 600));
      [discriminate|].
    destruct (json_loads (content resp)) as [e|fresh]; [discriminate|].
    destruct (open_error w (default_path tf)); [discriminate|].
    destruct (subscript fresh "access_token") as [e|tok] eqn:Htok;
      simpl; [discriminate|]. intros _. exists fresh.
    rewrite lookup_insert_eq. auto.
Qed.

(** ** More on the request functions *)

Lemma request_info_run ep h v w :
  truthy_str (Some ep) = true ->
  request_info_from_api (Some ep) h v w =
  match reauthenticate w with
  | (inl e, w1) => (inl e, w1)
  | (inr _, w1) =>
      match fst (request_headers h w1) with
      | inl e => (inl e, w1)
      | inr hs =>
          let rq := data_request ep hs (default_verify v) in
          let w2 := mk_World (files w1) (open_error w1) (utcnow w1)
                             (remote w1) (sent w1 ++ [rq]) (written w1)
                             (access_token w1) (login_data w1) in
          match remote w1 rq with
          | inl e => (inl e, w2)
          | inr resp =>
              if (400 <=? status_code resp) && (status_code resp <? 600)
              then (inl (HTTPError (status_code resp)), w2)
              else (json_loads (content resp), w2)
          end
      end
  end.
Proof.
  intros Hep. unfold request_info_from_api, bind at 1.
  destruct (reauthenticate w) as [[e|r] w1]; [reflexivity|].
  rewrite Hep. unfold bind at 1.
  rewrite (surjective_pairing (request_headers h w1)), request_headers_world.
  destruct (fst (request_headers h w1)) as [e|hs]; [reflexivity|].
  unfold bind, requests_call, data_request. simpl.
  destruct (remote w1 _) as [e|resp]; [reflexivity|].
  unfold raise_for_status.
  destruct ((400 <=? status_code resp) && (status_code resp <? 600));
    [reflexivity|].
  simpl. destruct (json_loads (content resp)); reflexivity.
Qed.

Lemma request_file_run ep h v s fn fp w :
  truthy_str (Some ep) = true ->
  request_file_from_api (Some ep) h v s fn fp w =
  match reauthenticate w with
  | (inl e, w1) => (inl e, w1)
  | (inr _, w1) =>
      match fst (request_headers h w1) with
      | inl e => (inl e, w1)
      | inr hs =>
          let rq := data_request ep hs (VBool true) in
          let w2 := mk_World (files w1) (open_error w1) (utcnow w1)
                             (remote w1) (sent w1 ++ [rq]) (written w1)
                             (access_token w1) (login_data w1) in
          match remote w1 rq with
          | inl e => (inl e, w2)
          | inr resp =>
              if (400 <=? status_code resp) && (status_code resp <? 600)
              then (inl (HTTPError (status_code resp)), w2)
              else
                match s with
                | Some true =>
                    match fp, fn with
                    | Some d, Some f =>
                        match open_error w1 (Path d f) with
                        | Some e => (inl e, w2)
                        | None =>
                            (inr JNull,
                             mk_World
                               (<[Path d f := content resp]> (files w1))
                               (open_error w1) (utcnow w1) (remote w1)
                               (sent w1 ++ [rq])
                               (written w1 ++ [(Path d f, content resp)])
                               (access_token w1) (login_data w1))
                        end
                    | _, _ => (inl TypeError, w2)
                    end
                | _ => (inr JNull, w2)
                end
          end
      end
  end.
Proof.
  intros Hep. unfold request_file_from_api, bind at 1.
  destruct (reauthenticate w) as [[e|r] w1]; [reflexivity|].
  rewrite Hep. unfold bind at 1.
  rewrite (surjective_pairing (request_headers h w1)), request_headers_world.
  destruct (fst (request_headers h w1)) as [e|hs]; [reflexivity|].
  unfold bind, requests_call, data_request. simpl.
  destruct (remote w1 _) as [e|resp]; [reflexivity|].
  unfold raise_for_status.
  destruct ((400 <=? status_code resp) && (status_code resp <? 600));
    [reflexivity|].
  simpl. destruct s as [[|]|]; try reflexivity.
  destruct fp as [d|], fn as [f|]; try reflexivity.
  unfold write_file. simpl.
  destruct (open_error w1 (Path d f)); reflexivity.
Qed.

Lemma reauthenticate_login_data w :
  login_data (snd (reauthenticate w)) = login_data w.
Proof.
  rewrite reauthenticate_run.
  destruct (fst (cache_check (default_path None) w)) as [e|[|]] eqn:E.
  - rewrite (authenticate_crash _ _ _ _ _ _ _ _ E). reflexivity.
  - destruct (cache_check_inv _ _ _ E) as (token & Hf & Hv).
    rewrite (authenticate_cached _ _ _ _ _ _ _ _ Hf Hv).
    destruct (subscript token "access_token"); reflexivity.
  - destruct (cache_check_inv _ _ _ E) as (token & Hf & Hv).
    rewrite (authenticate_refresh _ _ _ _ _ _ _ _ Hf Hv). cbv zeta.
    destruct (remote w _) as [e|resp]; [reflexivity|].
    destruct ((400 <=? status_code resp) && (status_code resp <? 600));
      [reflexivity|].
    destruct (json_loads (content resp)) as [e|fresh]; [reflexivity|].
    destruct (open_error w (default_path None)); [reflexivity|].
    destruct (subscript fresh "access_token"); reflexivity.
Qed.

Lemma authenticate_open_error u p d h v tf w :
  open_error (snd (authenticate u p d h v tf w)) = open_error w.
Proof.
  destruct (fst (cache_check (default_path tf) w)) as [e|[|]] eqn:E.
  - rewrite (authenticate_crash _ _ _ _ _ _ _ _ E). reflexivity.
  - destruct (cache_check_inv _ _ _ E) as (token & Hf & Hv).
    rewrite (authenticate_cached _ _ _ _ _ _ _ _ Hf Hv).
    destruct (subscript token "access_token"); reflexivity.
  - destruct (cache_check_inv _ _ _ E) as (token & Hf & Hv).
    rewrite (authenticate_refresh _ _ _ _ _ _ _ _ Hf Hv). cbv zeta.
    destruct (remote w _) as [e|resp]; [reflexivity|].
    destruct ((400 <=? status_code resp) && (status_code resp <? 600));
      [reflexivity|].
    destruct (json_loads (content resp)) as [e|fresh]; [reflexivity|].
    destruct (open_error w (default_path tf)); [reflexivity|].
    destruct (subscript fresh "access_token"); reflexivity.
Qed.

(** X12. When the authentication at the head of a request function
    throws, the request function throws the same and stops there: no GET
    is sent. *)
Theorem failed_authentication_stops_request
    (ep : option string) (h : option headers_t) (v : option verify_val)
    (s : option bool) (fn fp : option string) (w : World) (e : exn) :
  fst (reauthenticate w) = inl e ->
  request_info_from_api ep h v w = (inl e, snd (reauthenticate w))
  /\ request_file_from_api ep h v s fn fp w = (inl e, snd (reauthenticate w)).
Proof.
  intros He. unfold request_info_from_api, request_file_from_api, bind.
  destruct (reauthenticate w) as [[e'|r] w1]; simpl in *; [|discriminate].
  injection He as ->. split; reflexivity.
Qed.

(** X13. [request_info_from_api] on a non-empty endpoint, once
    authenticated: it throws what the transport throws, [HTTPError] with
    the status on a 4xx or 5xx answer, [UnicodeDecodeError] on a body
    whose bytes are not text and [JSONDecodeError] on a body whose text is
    not JSON; otherwise it returns the decoded body. It writes no file and
    leaves the globals as authentication set them. *)
Theorem request_info_outcome
    (ep : string) (h : option headers_t) (v : option verify_val)
    (w : World) (r : json) (hs : headers_t) :
  truthy_str (Some ep) = true ->
  fst (reauthenticate w) = inr r ->
  fst (request_headers h (snd (reauthenticate w))) = inr hs ->
  fst (request_info_from_api (Some ep) h v w)
  = match remote (snd (reauthenticate w))
                 (data_request ep hs (default_verify v)) with
    | inl e => inl e
    | inr resp =>
        if (400 <=? status_code resp) && (status_code resp <? 600)
        then inl (HTTPError (status_code resp))
        else
          match content resp with
          | Binary _ => inl UnicodeDecodeError
          | NotJson _ => inl JSONDecodeError
          | JsonText body => inr body
          end
    end
  /\ files (snd (request_info_from_api (Some ep) h v w))
     = files (snd (reauthenticate w))
  /\ access_token (snd (request_info_from_api (Some ep) h v w))
     = access_token (snd (reauthenticate w)).
Proof.
  intros Hep Hauth Hhs. rewrite (request_info_run ep h v w Hep).
  destruct (reauthenticate w) as [[e|r'] w1]; simpl in *; [discriminate|].
  rewrite Hhs. cbv zeta.
  destruct (remote w1 _) as [e|resp]; [auto|].
  destruct ((400 <=? status_code resp) && (status_code resp <? 600));
    [auto|].
  destruct (content resp); auto.
Qed.

(** X14. When the caller gives no headers and the global access token is
    not a string, both request functions throw [TypeError] while building
    the [Authorization] header, before any GET. *)
Theorem bearer_needs_string_token
    (ep : string) (h : option headers_t) (v : option verify_val)
    (s : option bool) (fn fp : option string) (w : World) (r : json) :
  truthy_str (Some ep) = true ->
  truthy_headers h = false ->
  fst (reauthenticate w) = inr r ->
  (forall t, access_token (snd (reauthenticate w)) <> JStr t) ->
  request_info_from_api (Some ep) h v w
  = (inl TypeError, snd (reauthenticate w))
  /\ request_file_from_api (Some ep) h v s fn fp w
     = (inl TypeError, snd (reauthenticate w)).
Proof.
  intros Hep Hh Hauth Htok.
  rewrite (request_info_run ep h v w Hep),
    (request_file_run ep h v s fn fp w Hep).
  destruct (reauthenticate w) as [[e|r'] w1]; simpl in *; [discriminate|].
  assert (Hhs : fst (request_headers h w1) = inl TypeError).
  { assert (Hb : fst (bearer_headers w1) = inl TypeError).
    { unfold bearer_headers, bind, get_access_token, lift, ret, raise.
      destruct (access_token w1) as [| | |t| |]; simpl; try reflexivity.
      destruct (Htok t); reflexivity. }
    destruct h as [[|x rest]|]; simpl in *; try discriminate; exact Hb. }
  rewrite Hhs. split; reflexivity.
Qed.

(** X15. [request_file_from_api], once the answer has come with a status
    that passes. With [save_it] true and both [filepath] and [filename]
    given, the file at their join is opened for writing: if that throws,
    the call throws the same and no file changes; otherwise the file holds
    the content of the answer, whatever it is, and nothing else changes.
    With [save_it] true and one of the two missing it throws [TypeError];
    with [save_it] false or missing nothing is written. It returns [None]
    when it completes. *)
Theorem request_file_saves_on_demand
    (ep : string) (h : option headers_t) (v : option verify_val)
    (s : option bool) (fn fp : option string) (w : World)
    (r : json) (hs : headers_t) (resp : response) :
  truthy_str (Some ep) = true ->
  fst (reauthenticate w) = inr r ->
  fst (request_headers h (snd (reauthenticate w))) = inr hs ->
  remote (snd (reauthenticate w)) (data_request ep hs (VBool true))
  = inr resp ->
  status_code resp < 400 \/ 600 <= status_code resp ->
  match s, fp, fn with
  | Some true, Some d, Some f =>
      match open_error w (Path d f) with
      | None =>
          fst (request_file_from_api (Some ep) h v s fn fp w) = inr JNull
          /\ files (snd (request_file_from_api (Some ep) h v s fn fp w))
             = <[Path d f := content resp]> (files (snd (reauthenticate w)))
      | Some e =>
          fst (request_file_from_api (Some ep) h v s fn fp w) = inl e
          /\ files (snd (request_file_from_api (Some ep) h v s fn fp w))
             = files (snd (reauthenticate w))
      end
  | Some true, _, _ =>
      fst (request_file_from_api (Some ep) h v s fn fp w) = inl TypeError
      /\ files (snd (request_file_from_api (Some ep) h v s fn fp w))
         = files (snd (reauthenticate w))
  | _, _, _ =>
      fst (request_file_from_api (Some ep) h v s fn fp w) = inr JNull
      /\ files (snd (request_file_from_api (Some ep) h v s fn fp w))
         = files (snd (reauthenticate w))
  end.
Proof.
  intros Hep Hauth Hhs Hresp Hstatus.
  assert (Hopen := authenticate_open_error
                     None None (login_data w) None None None w).
  rewrite <- reauthenticate_run in Hopen.
  rewrite (request_file_run ep h v s fn fp w Hep).
  destruct (reauthenticate w) as [[e|r'] w1]; simpl in *; [discriminate|].
  rewrite Hhs. cbv zeta. rewrite Hresp, (status_passes _ Hstatus).
  destruct s as [[|]|]; [|auto|auto].
  destruct fp as [d|], fn as [f|]; auto.
  rewrite <- Hopen. destruct (open_error w1 (Path d f)); auto.
Qed.

(** X16. The request functions never change the global [login_data], and
    the token request they may send carries it as body: what the last
    completed [authenticate] left there is what a later refresh posts. *)
Theorem requests_keep_login_data
    (ep : option string) (h : option headers_t) (v : option verify_val)
    (s : option bool) (fn fp : option string) (w : World) (rq : request) :
  login_data (snd (request_info_from_api ep h v w)) = login_data w
  /\ login_data (snd (request_file_from_api ep h v s fn fp w)) = login_data w
  /\ (In rq (issued (request_info_from_api ep h v) w)
      \/ In rq (issued (request_file_from_api ep h v s fn fp) w) ->
      rq_method rq = POST ->
      rq_json rq = login_data w).
Proof.
  assert (Hld := reauthenticate_login_data w).
  split; [|split].
  - destruct ep as [ep|];
      [destruct (truthy_str (Some ep)) eqn:Hep|].
    + rewrite (request_info_run ep h v w Hep).
      destruct (reauthenticate w) as [[e|r] w1]; simpl in *; [exact Hld|].
      destruct (fst (request_headers h w1)); [exact Hld|]. cbv zeta.
      destruct (remote w1 _) as [e|resp]; [exact Hld|].
      destruct ((400 <=? status_code resp) && (status_code resp <? 600));
        exact Hld.
    + unfold request_info_from_api, bind.
      destruct (reauthenticate w) as [[e|r] w1]; simpl in *; [exact Hld|].
      rewrite Hep. exact Hld.
    + unfold request_info_from_api, bind.
      destruct (reauthenticate w) as [[e|r] w1]; exact Hld.
  - destruct ep as [ep|];
      [destruct (truthy_str (Some ep)) eqn:Hep|].
    + rewrite (request_file_run ep h v s fn fp w Hep).
      destruct (reauthenticate w) as [[e|r] w1]; simpl in *; [exact Hld|].
      destruct (fst (request_headers h w1)); [exact Hld|]. cbv zeta.
      destruct (remote w1 _) as [e|resp]; [exact Hld|].
      destruct ((400 <=? status_code resp) && (status_code resp <? 600));
        [exact Hld|].
      destruct s as [[|]|]; try exact Hld.
      destruct fp as [dir|], fn as [name|]; try exact Hld.
      destruct (open_error w1 (Path dir name)); exact Hld.
    + unfold request_file_from_api, bind.
      destruct (reauthenticate w) as [[e|r] w1]; simpl in *; [exact Hld|].
      rewrite Hep. exact Hld.
    + unfold request_file_from_api, bind.
      destruct (reauthenticate w) as [[e|r] w1]; exact Hld.
  - intros Hin Hpost.
    assert (Hre : In rq (issued reauthenticate w)).
    { destruct Hin as [H|H];
        [rewrite request_info_issued in H|rewrite request_file_issued in H];
        apply in_app_or in H as [H|H]; try exact H;
        apply data_requests_method in H as (e & hs & -> & _);
        discriminate Hpost. }
    rewrite reauthenticate_issued in Hre.
    destruct (fst (cache_check TOKEN_FILEPATH w)) as [e|[|]];
      simpl in Hre; try contradiction.
    destruct Hre as [<-|[]]. reflexivity.
Qed.

(** X17. A request function sends at most two requests: at most one token
    request, then at most one GET, in this order. *)
Theorem at_most_one_post_then_one_get
    (ep : option string) (h : option headers_t) (v : option verify_val)
    (s : option bool) (fn fp : option string) (w : World) :
  (exists posts gets,
     issued (request_info_from_api ep h v) w = posts ++ gets
     /\ (length posts <= 1)%nat /\ (length gets <= 1)%nat
     /\ Forall (fun rq => rq_method rq = POST) posts
     /\ Forall (fun rq => rq_method rq = GET) gets)
  /\ (exists posts gets,
        issued (request_file_from_api ep h v s fn fp) w = posts ++ gets
        /\ (length posts <= 1)%nat /\ (length gets <= 1)%nat
        /\ Forall (fun rq => rq_method rq = POST) posts
        /\ Forall (fun rq => rq_method rq = GET) gets).
Proof.
  assert (Hposts :
    (length (issued reauthenticate w) <= 1)%nat
    /\ Forall (fun rq => rq_method rq = POST) (issued reauthenticate w)).
  { rewrite reauthenticate_issued.
    destruct (fst (cache_check TOKEN_FILEPATH w)) as [e|[|]]; simpl;
      split; repeat constructor. }
  assert (Hgets : forall verify a,
    (length (data_requests ep h verify a) <= 1)%nat
    /\ Forall (fun rq => rq_method rq = GET) (data_requests ep h verify a)).
  { intros verify [[e|r] w1]; unfold data_requests;
      [split; repeat constructor|].
    destruct ep as [ep|]; [|split; repeat constructor].
    destruct (truthy_str (Some ep)); [|split; repeat constructor].
    destruct (fst (request_headers h w1)); simpl;
      split; repeat constructor. }
  destruct Hposts as [Hp1 Hp2]. split.
  - exists (issued reauthenticate w),
      (data_requests ep h (default_verify v) (reauthenticate w)).
    destruct (Hgets (default_verify v) (reauthenticate w)) as [Hg1 Hg2].
    rewrite request_info_issued. auto.
  - exists (issued reauthenticate w),
      (data_requests ep h (VBool true) (reauthenticate w)).
    destruct (Hgets (VBool true) (reauthenticate w)) as [Hg1 Hg2].
    rewrite request_file_issued. auto.
Qed.

(** ** More on the identifier lookup *)

Lemma first_id_skips name (pre rest : list json) :
  Forall (fun i => exists d, subscript i "descricao" = inr d
                             /\ eq_str d name = false) pre ->
  first_id name (pre ++ rest) = first_id name rest.
Proof using.
  induction 1 as [|i pre (d & Hd & Hne) _ IH]; simpl; [reflexivity|].
  rewrite Hd, Hne. exact IH.
Qed.

(** X18. Once an entry matches, what follows it in the list is never
    looked at: the result is that entry's [id] (or the [KeyError] of its
    missing [id]), whatever the later items are. *)
Theorem get_id_ignores_what_follows
    (name : string) (pre post : list json) (e d : json) :
  Forall (fun i => exists d, subscript i "descricao" = inr d
                             /\ eq_str d name = false) pre ->
  subscript e "descricao" = inr d ->
  eq_str d name = true ->
  get_id name (JArr (pre ++ e :: post)) = subscript e "id".
Proof using.
  intros Hpre Hd Hmatch. unfold get_id. simpl.
  rewrite (first_id_skips name pre (e :: post) Hpre). simpl.
  rewrite Hd, Hmatch. reflexivity.
Qed.

(** X19. An item before the first match that has no readable [descricao]
    (a missing key, or an item that is not an object) makes [get_id] throw,
    even if a matching entry follows. *)
Theorem get_id_stops_at_malformed_entry
    (name : string) (pre post : list json) (bad : json) (err : exn) :
  Forall (fun i => exists d, subscript i "descricao" = inr d
                             /\ eq_str d name = false) pre ->
  subscript bad "descricao" = inl err ->
  get_id name (JArr (pre ++ bad :: post)) = inl err.
Proof using.
  intros Hpre Hbad. unfold get_id. simpl.
  rewrite (first_id_skips name pre (bad :: post) Hpre). simpl.
  rewrite Hbad. reflexivity.
Qed.

(** X20. [get_id] on a value that is not a list: [None], a number and a
    boolean cannot be iterated ([TypeError]); an object or a string yields
    its keys or characters, which cannot be subscripted by ['descricao']
    ([TypeError]), unless it is empty ([StopIteration]). *)
Theorem get_id_needs_a_list (name : string) (v : json) :
  match v with
  | JArr _ => True
  | JObj [] | JStr EmptyString => get_id name v = inl StopIteration
  | _ => get_id name v = inl TypeError
  end.
Proof using.
  destruct v as [| | |s| |fields]; try reflexivity; try exact I.
  - destruct s; reflexivity.
  - destruct fields as [|[k x] rest]; reflexivity.
Qed.

(** X21. [get_id_of_item] with an empty endpoint never finds an id: the
    fetch returns [None] without a GET, and the lookup throws
    [TypeError]. *)
Theorem get_id_of_item_without_endpoint
    (name : string) (w : World) (r : json) :
  fst (reauthenticate w) = inr r ->
  get_id_of_item name "" w = (inl TypeError, snd (reauthenticate w)).
Proof.
  intros Hauth. unfold get_id_of_item, fetch_ids, request_info_from_api, bind.
  destruct (reauthenticate w) as [[e|r'] w1]; simpl in *; [discriminate|].
  reflexivity.
Qed.

(** X22. Each of the three lookups sends its GET to its own reference
    endpoint under the base URL, without a body and with certificate
    verification on. *)
Theorem lookups_ask_their_endpoint
    (name : string) (w : World) (rq : request) :
  rq_method rq = GET ->
  (In rq (issued (get_id_of_mode name) w) ->
   rq_url rq = "https://api.pluvia.app/v2/valoresParametros/modos"
   /\ rq_json rq = JNull /\ rq_verify rq = VBool true)
  /\ (In rq (issued (get_id_of_precipitation_source name) w) ->
      rq_url rq = "https://api.pluvia.app/v2/valoresParametros/mapas"
      /\ rq_json rq = JNull /\ rq_verify rq = VBool true)
  /\ (In rq (issued (get_id_of_forecast_model name) w) ->
      rq_url rq = "https://api.pluvia.app/v2/valoresParametros/modelos"
      /\ rq_json rq = JNull /\ rq_verify rq = VBool true).
Proof.
  intros Hget.
  assert (Hitem : forall ep,
    In rq (issued (get_id_of_item name ep) w) ->
    rq_url rq = String.append BASE_URL ep
    /\ rq_json rq = JNull /\ rq_verify rq = VBool true).
  { intros ep Hin.
    assert (Hsame : issued (get_id_of_item name ep) w
                    = issued (request_info_from_api (Some ep) None None) w).
    { unfold issued, get_id_of_item, fetch_ids, bind.
      destruct (request_info_from_api (Some ep) None None w) as [[e|l] w1];
        [reflexivity|].
      simpl. destruct (get_id name l); reflexivity. }
    rewrite Hsame, request_info_issued in Hin.
    apply in_app_or in Hin as [H|H].
    - apply reauthenticate_posts in H as [H _]. congruence.
    - apply data_requests_method in H as (e & hs & -> & [= <-] & _).
      auto. }
  split; [|split]; intros Hin; apply Hitem in Hin; exact Hin.
Qed.

End Pluvia.

(** ** The model at work

    The module run on the sample worlds, with [strptime_utc] for the
    parser and the sample directory for the module's own. *)

#[local] Abbreviation auth := (authenticate strptime_utc join_path sample_dir).
#[local] Abbreviation info := (request_info_from_api strptime_utc join_path sample_dir).
#[local] Abbreviation file := (request_file_from_api strptime_utc join_path sample_dir).
#[local] Abbreviation check := (cache_check strptime_utc).
#[local] Abbreviation standard_headers :=
  [("content-type", "application/json"); ("accept", "*/*")].
#[local] Abbreviation bearer tok :=
  [("Authorization", tok); ("Content-Type", "application/json")].

(** C1. [authenticate] completes and evaluates to [None], on a valid
    stored record as well as after a refresh; the access token of the
    resulting record only goes to the global. *)
Theorem authenticate_evaluates_to_None :
  fst (auth None None JNull None None None (start fresh_store accepting))
  = inr JNull
  /\ access_token
       (snd (auth None None JNull None None None (start fresh_store accepting)))
     = JStr "tok-cached"
  /\ fst (auth (Some "miguel") (Some "secret") JNull None None None
               (start stale_store accepting))
     = inr JNull
  /\ access_token
       (snd (auth (Some "miguel") (Some "secret") JNull None None None
                  (start stale_store accepting)))
     = JStr "tok-new".
Proof. repeat split; vm_compute; reflexivity. Qed.

Lemma is_valid_token_spec_witness :
  is_valid_token strptime_utc JNull (start no_store accepting)
  = (inr false, start no_store accepting)
  /\ is_valid_token strptime_utc fresh_record (start no_store accepting)
     = (inr true, start no_store accepting)
  /\ is_valid_token strptime_utc stale_record (start no_store accepting)
     = (inr false, start no_store accepting)
  /\ is_valid_token strptime_utc
       (JObj [("access_token", JStr "t"); ("expires", JStr "2024-06-01T12:00:00Z")])
       (start no_store accepting)
     = (inr false, start no_store accepting).
Proof.
  split; [|split; [|split]].
  - apply (is_valid_token_spec strptime_utc fresh_record
             "2030-01-01T00:00:00Z" (mk_datetime 2030 1 1 0 0 0 0));
      vm_compute; reflexivity.
  - apply (is_valid_token_spec strptime_utc fresh_record
             "2030-01-01T00:00:00Z" (mk_datetime 2030 1 1 0 0 0 0));
      vm_compute; reflexivity.
  - apply (is_valid_token_spec strptime_utc stale_record
             "2020-01-01T00:00:00Z" (mk_datetime 2020 1 1 0 0 0 0));
      vm_compute; solve [reflexivity | discriminate].
  - apply (is_valid_token_spec strptime_utc
             (JObj [("access_token", JStr "t");
                    ("expires", JStr "2024-06-01T12:00:00Z")])
             "2024-06-01T12:00:00Z" noon);
      vm_compute; solve [reflexivity | discriminate].
Defined.

Lemma authenticate_valid_is_idempotent_witness :
  fst (check sample_path (start fresh_store accepting)) = inr true
  /\ issued (auth None None JNull None None None)
            (start fresh_store accepting) = []
  /\ wrote (auth None None JNull None None None)
           (start fresh_store accepting) = []
  /\ issued (auth None None JNull None None None)
            (snd (auth None None JNull None None None
                       (start fresh_store accepting))) = [].
Proof.
  assert (H : fst (check sample_path (start fresh_store accepting))
              = inr true) by (vm_compute; reflexivity).
  split; [exact H|].
  destruct (authenticate_valid_is_idempotent strptime_utc join_path
              sample_dir None None JNull None None None
              (start fresh_store accepting) H)
    as (H1 & H2 & _ & _ & H5).
  auto.
Defined.

Lemma rejected_refresh_changes_nothing_witness :
  fst (auth (Some "miguel") (Some "secret") JNull None None None
            (start stale_store rejecting))
  = inl (HTTPError 401)
  /\ files (snd (auth (Some "miguel") (Some "secret") JNull None None None
                      (start stale_store rejecting)))
     = stale_store
  /\ access_token
       (snd (auth (Some "miguel") (Some "secret") JNull None None None
                  (start stale_store rejecting)))
     = JNull.
Proof.
  destruct (rejected_refresh_changes_nothing strptime_utc join_path
              sample_dir (Some "miguel") (Some "secret") JNull None None None
              (start stale_store rejecting)
              (mk_response 401 (NotJson "Unauthorized")))
    as (H1 & H2 & _ & H4 & _).
  - vm_compute; reflexivity.
  - vm_compute; reflexivity.
  - simpl; lia.
  - auto.
Defined.

Lemma verify_false_is_overridden_witness :
  issued (auth None None JNull None (Some (VBool false)) None)
         (start no_store accepting)
  = [token_request JNull standard_headers (VBool true)].
Proof.
  destruct (verify_false_is_overridden strptime_utc join_path sample_dir
              None None JNull None None (start no_store accepting))
    as (_ & _ & H).
  apply H. vm_compute; reflexivity.
Defined.

Lemma authenticate_without_credentials_witness :
  (issued (auth None None JNull None None None) (start no_store rejecting)
   = [token_request JNull standard_headers (VBool true)]
   /\ fst (auth None None JNull None None None (start no_store rejecting))
      = inl (HTTPError 401)
   /\ files (snd (auth None None JNull None None None
                       (start no_store rejecting))) = no_store)
  /\ (fst (auth None None JNull None None None (start no_store accepting))
      = inr JNull
      /\ wrote (auth None None JNull None None None)
               (start no_store accepting)
         = [(sample_path, JsonText new_record)])
  /\ (fst (auth None None JNull None None None
               (start no_store (granting tokenless_record)))
      = inl (KeyError "access_token")
      /\ wrote (auth None None JNull None None None)
               (start no_store (granting tokenless_record))
         = [(sample_path, JsonText tokenless_record)])
  /\ (fst (auth None None JNull None None (Some "/missing/.pluvia")
               (start no_store accepting))
      = inl FileNotFoundError
      /\ wrote (auth None None JNull None None (Some "/missing/.pluvia"))
               (start no_store accepting) = [])
  /\ (issued (auth None None JNull None None None)
             (start fresh_store rejecting) = []
      /\ fst (auth None None JNull None None None
                   (start fresh_store rejecting)) = inr JNull).
Proof.
  split; [|split; [|split; [|split]]].
  - destruct (authenticate_without_credentials strptime_utc join_path
                sample_dir None None JNull None None None
                (start no_store rejecting) false)
      as (H1 & H2 & _ & H4);
      [reflexivity|reflexivity|vm_compute; reflexivity|].
    split; [exact H1|]. split; [rewrite H2|rewrite H4]; reflexivity.
  - destruct (authenticate_without_credentials strptime_utc join_path
                sample_dir None None JNull None None None
                (start no_store accepting) false)
      as (_ & H2 & H3 & _);
      [reflexivity|reflexivity|vm_compute; reflexivity|].
    split; [rewrite H2|rewrite H3]; reflexivity.
  - destruct (authenticate_without_credentials strptime_utc join_path
                sample_dir None None JNull None None None
                (start no_store (granting tokenless_record)) false)
      as (_ & H2 & H3 & _);
      [reflexivity|reflexivity|vm_compute; reflexivity|].
    split; [rewrite H2|rewrite H3]; reflexivity.
  - destruct (authenticate_without_credentials strptime_utc join_path
                sample_dir None None JNull None None
                (Some "/missing/.pluvia")
                (start no_store accepting) false)
      as (_ & H2 & H3 & _);
      [reflexivity|reflexivity|vm_compute; reflexivity|].
    split; [rewrite H2|rewrite H3]; reflexivity.
  - destruct (authenticate_without_credentials strptime_utc join_path
                sample_dir None None JNull None None None
                (start fresh_store rejecting) true)
      as (H1 & _ & _ & H4);
      [reflexivity|reflexivity|vm_compute; reflexivity|].
    split; [exact H1|]. rewrite H4. vm_compute; reflexivity.
Defined.

(** C2, as stated, fails: with no usable login data and no stored record,
    [authenticate] completes when the server grants the token, and when
    the server refuses it throws the server's [HTTPError] after the request
    has gone out. *)
Lemma authenticate_without_credentials_completes :
  fst (check sample_path (start no_store accepting)) = inr false
  /\ fst (auth None None JNull None None None (start no_store accepting))
     = inr JNull
  /\ fst (auth None None JNull None None None (start no_store rejecting))
     = inl (HTTPError 401)
  /\ sent (snd (auth None None JNull None None None
                     (start no_store rejecting)))
     = [token_request JNull standard_headers (VBool true)].
Proof. repeat split; vm_compute; reflexivity. Qed.

Lemma request_info_without_endpoint_witness :
  info None None None (start stale_store accepting)
  = (inr JNull,
     snd (auth None None JNull None None None (start stale_store accepting)))
  /\ issued (info None None None) (start stale_store accepting)
     = [token_request JNull standard_headers (VBool true)]
  /\ issued (info (Some "") None None) (start fresh_store accepting) = [].
Proof.
  destruct (request_info_without_endpoint strptime_utc join_path sample_dir
              None None None (start stale_store accepting) eq_refl)
    as (H1 & H2).
  destruct (request_info_without_endpoint strptime_utc join_path sample_dir
              (Some "") None None (start fresh_store accepting) eq_refl)
    as (_ & H3).
  split; [|split].
  - rewrite H1. vm_compute; reflexivity.
  - rewrite H2. vm_compute; reflexivity.
  - rewrite H3. vm_compute; reflexivity.
Defined.

(** C3, as stated, fails: with a stored record that is no longer valid, a
    call with no endpoint sends the token request, and when the server
    refuses it the call throws instead of returning [None]. *)
Lemma request_info_without_endpoint_posts :
  issued (info None None None) (start stale_store accepting)
  = [token_request JNull standard_headers (VBool true)]
  /\ fst (info None None None (start stale_store rejecting))
     = inl (HTTPError 401).
Proof. split; vm_compute; reflexivity. Qed.

Lemma file_request_always_verifies_witness :
  issued (file (Some "/v2/download") None (Some (VBundle "/etc/ca.pem"))
               None None None)
         (start fresh_store accepting)
  = [data_request "/v2/download" (bearer "Bearer tok-cached") (VBool true)]
  /\ issued (file (Some "/v2/download") None (Some (VBool false))
                  None None None)
            (start stale_store accepting)
     = [token_request JNull standard_headers (VBool true);
        data_request "/v2/download" (bearer "Bearer tok-new") (VBool true)]
  /\ file (Some "/v2/download") None (Some (VBundle "/etc/ca.pem"))
          None None None (start fresh_store accepting)
     = file (Some "/v2/download") None None
            None None None (start fresh_store accepting)
  /\ issued (info (Some "/v2/valoresParametros/modos") None
                  (Some (VBundle "/etc/ca.pem")))
            (start fresh_store accepting)
     = [data_request "/v2/valoresParametros/modos"
                     (bearer "Bearer tok-cached") (VBundle "/etc/ca.pem")].
Proof.
  destruct (file_request_always_verifies strptime_utc join_path sample_dir
              (Some "/v2/download") None (Some (VBundle "/etc/ca.pem"))
              None None None (start fresh_store accepting)
              (data_request "/v2/download" (bearer "Bearer tok-cached")
                            (VBool true)))
    as (Hsame & _ & _ & Hsent).
  destruct (Hsent "/v2/download" JNull (bearer "Bearer tok-cached")
              eq_refl eq_refl) as (Hfile & _);
    [vm_compute; reflexivity|vm_compute; reflexivity|].
  destruct (file_request_always_verifies strptime_utc join_path sample_dir
              (Some "/v2/download") None (Some (VBool false))
              None None None (start stale_store accepting)
              (data_request "/v2/download" (bearer "Bearer tok-new")
                            (VBool true)))
    as (_ & _ & _ & Hsent').
  destruct (Hsent' "/v2/download" JNull (bearer "Bearer tok-new")
              eq_refl eq_refl) as (Hfile' & _);
    [vm_compute; reflexivity|vm_compute; reflexivity|].
  destruct (file_request_always_verifies strptime_utc join_path sample_dir
              (Some "/v2/valoresParametros/modos") None
              (Some (VBundle "/etc/ca.pem"))
              None None None (start fresh_store accepting)
              (data_request "/v2/valoresParametros/modos"
                            (bearer "Bearer tok-cached")
                            (VBundle "/etc/ca.pem")))
    as (_ & _ & _ & Hsent'').
  destruct (Hsent'' "/v2/valoresParametros/modos" JNull
              (bearer "Bearer tok-cached") eq_refl eq_refl) as (_ & Hinfo);
    [vm_compute; reflexivity|vm_compute; reflexivity|].
  split; [rewrite Hfile; vm_compute; reflexivity|].
  split; [rewrite Hfile'; vm_compute; reflexivity|].
  split; [exact Hsame|].
  rewrite Hinfo. vm_compute; reflexivity.
Defined.

Lemma caller_headers_are_sent_as_given_witness :
  issued (info (Some "/v2/valoresParametros/modos")
               (Some [("X-Api-Key", "k")]) None)
         (start fresh_store accepting)
  = [data_request "/v2/valoresParametros/modos" [("X-Api-Key", "k")]
                  (VBool true)]
  /\ issued (file (Some "/v2/download") (Some [("X-Api-Key", "k")]) None
                  None None None)
            (start numeric_store accepting)
     = [data_request "/v2/download" [("X-Api-Key", "k")] (VBool true)]
  /\ issued (info (Some "/v2/valoresParametros/modos") (Some []) None)
            (start fresh_store accepting)
     = [data_request "/v2/valoresParametros/modos"
                     (bearer "Bearer tok-cached") (VBool true)]
  /\ rq_headers (data_request "/v2/valoresParametros/modos"
                              [("X-Api-Key", "k")] (VBool true))
     = [("X-Api-Key", "k")].
Proof.
  destruct (caller_headers_are_sent_as_given strptime_utc join_path
              sample_dir (Some "/v2/valoresParametros/modos")
              (Some [("X-Api-Key", "k")]) None None None None
              (start fresh_store accepting)
              (data_request "/v2/valoresParametros/modos"
                            [("X-Api-Key", "k")] (VBool true)))
    as (Hany & Hgiven & _).
  destruct (Hgiven "/v2/valoresParametros/modos" JNull ("X-Api-Key", "k") []
              eq_refl eq_refl eq_refl) as (Hinfo & _);
    [vm_compute; reflexivity|].
  destruct (caller_headers_are_sent_as_given strptime_utc join_path
              sample_dir (Some "/v2/download")
              (Some [("X-Api-Key", "k")]) None None None None
              (start numeric_store accepting)
              (data_request "/v2/download" [("X-Api-Key", "k")]
                            (VBool true)))
    as (_ & Hgiven' & _).
  destruct (Hgiven' "/v2/download" JNull ("X-Api-Key", "k") []
              eq_refl eq_refl eq_refl) as (_ & Hfile);
    [vm_compute; reflexivity|].
  destruct (caller_headers_are_sent_as_given strptime_utc join_path
              sample_dir (Some "/v2/valoresParametros/modos")
              (Some []) None None None None
              (start fresh_store accepting)
              (data_request "/v2/valoresParametros/modos"
                            (bearer "Bearer tok-cached") (VBool true)))
    as (_ & _ & Hbearer).
  destruct (Hbearer "/v2/valoresParametros/modos" JNull "tok-cached"
              eq_refl eq_refl eq_refl) as (Hinfo' & _);
    [vm_compute; reflexivity|vm_compute; reflexivity|].
  assert (Hin : In (data_request "/v2/valoresParametros/modos"
                                 [("X-Api-Key", "k")] (VBool true))
                   (issued (info (Some "/v2/valoresParametros/modos")
                                 (Some [("X-Api-Key", "k")]) None)
                           (start fresh_store accepting)))
    by (rewrite Hinfo; vm_compute; left; reflexivity).
  split; [rewrite Hinfo; vm_compute; reflexivity|].
  split; [rewrite Hfile; vm_compute; reflexivity|].
  split; [rewrite Hinfo'; vm_compute; reflexivity|].
  exact (Hany (or_introl Hin) eq_refl).
Defined.

Lemma get_id_first_match_witness :
  fst (get_id_of_mode strptime_utc join_path sample_dir "Mensal"
                      (start fresh_store accepting)) = inr (JStr "2")
  /\ fst (get_id_of_mode strptime_utc join_path sample_dir "Weekly"
                         (start fresh_store accepting)) = inl StopIteration.
Proof.
  pose (es := [mk_entry (JStr "1") "Diario"; mk_entry (JStr "2") "Mensal";
               mk_entry (JStr "3") "Mensal"]).
  set (w := start fresh_store accepting).
  pose (w' := snd (fetch_ids strptime_utc join_path sample_dir
                             "/v2/valoresParametros/modos" w)).
  assert (Hfetch : fetch_ids strptime_utc join_path sample_dir
                     "/v2/valoresParametros/modos" w
                   = (inr (JArr (map entry_json es)), w'))
    by (vm_compute; reflexivity).
  split.
  - destruct (get_id_first_match strptime_utc join_path sample_dir
                "Mensal" es "/v2/valoresParametros/modos" w w') as (_ & H).
    unfold get_id_of_mode. rewrite (H Hfetch). reflexivity.
  - destruct (get_id_first_match strptime_utc join_path sample_dir
                "Weekly" es "/v2/valoresParametros/modos" w w') as (_ & H).
    unfold get_id_of_mode. rewrite (H Hfetch). reflexivity.
Defined.

(** ** The further properties at work *)

Lemma refresh_stores_and_publishes_witness :
  (fst (auth (Some "miguel") (Some "secret") JNull None None None
             (start stale_store accepting)) = inr JNull
   /\ wrote (auth (Some "miguel") (Some "secret") JNull None None None)
            (start stale_store accepting)
      = [(sample_path, JsonText new_record)]
   /\ access_token
        (snd (auth (Some "miguel") (Some "secret") JNull None None None
                   (start stale_store accepting))) = JStr "tok-new"
   /\ login_data
        (snd (auth (Some "miguel") (Some "secret") JNull None None None
                   (start stale_store accepting))) = miguel_login)
  /\ (fst (auth (Some "miguel") (Some "secret") JNull None None
                (Some "/missing/.pluvia") (start no_store accepting))
      = inl FileNotFoundError
      /\ issued (auth (Some "miguel") (Some "secret") JNull None None
                      (Some "/missing/.pluvia"))
                (start no_store accepting)
         = [token_request miguel_login standard_headers (VBool true)]
      /\ access_token
           (snd (auth (Some "miguel") (Some "secret") JNull None None
                      (Some "/missing/.pluvia")
                      (start no_store accepting))) = JNull).
Proof.
  split.
  - pose proof (refresh_stores_and_publishes strptime_utc join_path
                  sample_dir (Some "miguel") (Some "secret") JNull
                  None None None (start stale_store accepting)
                  (mk_response 200 (JsonText new_record)) new_record
                  (JStr "tok-new")) as H.
    destruct H as (_ & H1 & H2 & _ & H4 & H5);
      [vm_compute; reflexivity|vm_compute; reflexivity|simpl; lia
      |reflexivity|reflexivity|].
    repeat split; assumption.
  - pose proof (refresh_stores_and_publishes strptime_utc join_path
                  sample_dir (Some "miguel") (Some "secret") JNull
                  None None (Some "/missing/.pluvia")
                  (start no_store accepting)
                  (mk_response 200 (JsonText new_record)) new_record
                  (JStr "tok-new")) as H.
    destruct H as (H0 & H1 & _ & _ & H4 & _);
      [vm_compute; reflexivity|vm_compute; reflexivity|simpl; lia
      |reflexivity|reflexivity|].
    repeat split; assumption.
Defined.

Lemma granted_record_without_token_is_stored_witness :
  fst (auth None None JNull None None None
            (start stale_store (granting tokenless_record)))
  = inl (KeyError "access_token")
  /\ files (snd (auth None None JNull None None None
                      (start stale_store (granting tokenless_record))))
     !! sample_path = Some (JsonText tokenless_record)
  /\ access_token
       (snd (auth None None JNull None None None
                  (start stale_store (granting tokenless_record)))) = JNull.
Proof.
  pose proof (granted_record_without_token_is_stored strptime_utc join_path
                sample_dir None None JNull None None None
                (start stale_store (granting tokenless_record))
                (mk_response 200 (JsonText tokenless_record))
                tokenless_record (KeyError "access_token")) as H.
  destruct H as (H1 & H2 & H3 & _);
    [vm_compute; reflexivity|vm_compute; reflexivity|simpl; lia
    |reflexivity|reflexivity|].
  repeat split; assumption.
Defined.

Lemma failed_refresh_leaves_store_witness :
  (fst (auth None None JNull None None None (start stale_store unreachable))
   = inl ConnectionError
   /\ files (snd (auth None None JNull None None None
                       (start stale_store unreachable))) = stale_store)
  /\ (fst (auth None None JNull None None None (start stale_store garbled))
      = inl JSONDecodeError
      /\ wrote (auth None None JNull None None None)
               (start stale_store garbled) = [])
  /\ (fst (auth None None JNull None None None (start stale_store mojibake))
      = inl UnicodeDecodeError
      /\ wrote (auth None None JNull None None None)
               (start stale_store mojibake) = []).
Proof.
  split; [|split].
  - destruct (failed_refresh_leaves_store strptime_utc join_path sample_dir
                None None JNull None None None
                (start stale_store unreachable) ConnectionError)
      as (H1 & _ & _ & H4 & _).
    + vm_compute; reflexivity.
    + left. reflexivity.
    + split; assumption.
  - destruct (failed_refresh_leaves_store strptime_utc join_path sample_dir
                None None JNull None None None
                (start stale_store garbled) JSONDecodeError)
      as (H1 & _ & H3 & _).
    + vm_compute; reflexivity.
    + right.
      exists (mk_response 200 (NotJson "<html>Service unavailable</html>")).
      repeat split; try reflexivity. simpl; lia.
    + split; assumption.
  - destruct (failed_refresh_leaves_store strptime_utc join_path sample_dir
                None None JNull None None None
                (start stale_store mojibake) UnicodeDecodeError)
      as (H1 & _ & H3 & _).
    + vm_compute; reflexivity.
    + right. exists (mk_response 200 (Binary latin1_bytes)).
      repeat split; try reflexivity. simpl; lia.
    + split; assumption.
Defined.

Lemma authenticate_after_refresh_witness :
  issued (auth None None JNull None None None)
         (snd (auth (Some "miguel") (Some "secret") JNull None None None
                    (start no_store accepting))) = []
  /\ issued (auth None None JNull None None None)
            (snd (auth (Some "miguel") (Some "secret") JNull None None None
                       (start no_store (granting stale_record))))
     = [token_request JNull standard_headers (VBool true)]
  /\ issued (auth None None JNull None None (Some "/missing/.pluvia"))
            (snd (auth (Some "miguel") (Some "secret") JNull None None
                       (Some "/missing/.pluvia")
                       (start no_store accepting)))
     = [token_request JNull standard_headers (VBool true)].
Proof.
  split; [|split].
  - rewrite (authenticate_after_refresh strptime_utc join_path sample_dir
               (Some "miguel") (Some "secret") JNull None None None
               (start no_store accepting)
               (mk_response 200 (JsonText new_record)) new_record
               (JStr "tok-new") None None JNull None None);
      try (vm_compute; reflexivity).
    simpl; lia.
  - rewrite (authenticate_after_refresh strptime_utc join_path sample_dir
               (Some "miguel") (Some "secret") JNull None None None
               (start no_store (granting stale_record))
               (mk_response 200 (JsonText stale_record)) stale_record
               (JStr "tok-old") None None JNull None None);
      try (vm_compute; reflexivity).
    simpl; lia.
  - rewrite (authenticate_after_refresh strptime_utc join_path sample_dir
               (Some "miguel") (Some "secret") JNull None None
               (Some "/missing/.pluvia")
               (start no_store accepting)
               (mk_response 200 (JsonText new_record)) new_record
               (JStr "tok-new") None None JNull None None);
      try (vm_compute; reflexivity).
    simpl; lia.
Defined.




Lemma unusable_credentials_are_ignored_witness :
  auth (Some "miguel") (Some "") JNull None None None
       (start no_store accepting)
  = auth None None JNull None None None (start no_store accepting)
  /\ auth (Some "miguel") (Some "secret") (JObj [("username", JStr "ana")])
          None None None (start no_store accepting)
     = auth None None (JObj [("username", JStr "ana")]) None None None
            (start no_store accepting).
Proof.
  split.
  - apply (unusable_credentials_are_ignored strptime_utc join_path
             sample_dir (Some "miguel") (Some "") JNull None None None
             (start no_store accepting)).
    right; right. reflexivity.
  - apply (unusable_credentials_are_ignored strptime_utc join_path
             sample_dir (Some "miguel") (Some "secret")
             (JObj [("username", JStr "ana")]) None None None
             (start no_store accepting)).
    left. reflexivity.
Defined.

Lemma authenticate_touches_only_token_file_witness :
  files (snd (auth None None JNull None None None
                   (start (<["/tmp/report.csv" := NotJson "a;b"]> stale_store)
                          accepting)))
  !! "/tmp/report.csv" = Some (NotJson "a;b").
Proof.
  destruct (authenticate_touches_only_token_file strptime_utc join_path
              sample_dir None None JNull None None None
              (start (<["/tmp/report.csv" := NotJson "a;b"]> stale_store)
                     accepting)
              "/tmp/report.csv") as (H & _).
  - vm_compute. discriminate.
  - rewrite H. vm_compute; reflexivity.
Defined.

Lemma completed_authenticate_agrees_with_store_witness :
  exists token,
    files (snd (auth (Some "miguel") (Some "secret") JNull None None None
                     (start stale_store accepting)))
    !! sample_path = Some (JsonText token)
    /\ subscript token "access_token"
       = inr (access_token
                (snd (auth (Some "miguel") (Some "secret") JNull None None
                           None (start stale_store accepting)))).
Proof.
  destruct (completed_authenticate_agrees_with_store strptime_utc join_path
              sample_dir (Some "miguel") (Some "secret") JNull None None None
              (start stale_store accepting) JNull)
    as (token & H1 & H2 & _).
  - vm_compute; reflexivity.
  - exists token. split; assumption.
Defined.

Lemma failed_authentication_stops_request_witness :
  info (Some "/v2/valoresParametros/modos") None None
       (start stale_store rejecting)
  = (inl (HTTPError 401),
     snd (reauthenticate strptime_utc join_path sample_dir
                         (start stale_store rejecting)))
  /\ sent (snd (info (Some "/v2/valoresParametros/modos") None None
                     (start stale_store rejecting)))
     = [token_request JNull standard_headers (VBool true)].
Proof.
  destruct (failed_authentication_stops_request strptime_utc join_path
              sample_dir (Some "/v2/valoresParametros/modos") None None
              None None None (start stale_store rejecting) (HTTPError 401))
    as (H & _).
  - vm_compute; reflexivity.
  - split; [exact H|]. rewrite H. vm_compute; reflexivity.
Defined.

Lemma request_info_outcome_witness :
  fst (info (Some "/v2/valoresParametros/modos") None None
            (start fresh_store accepting)) = inr modes
  /\ fst (info (Some "/v2/valoresParametros/modos") None None
               (start fresh_store missing)) = inl (HTTPError 404)
  /\ fst (info (Some "/v2/valoresParametros/modos") None None
               (start fresh_store garbled)) = inl JSONDecodeError
  /\ fst (info (Some "/v2/valoresParametros/modos") None None
               (start fresh_store mojibake)) = inl UnicodeDecodeError
  /\ fst (info (Some "/v2/valoresParametros/modos") None None
               (start fresh_store unreachable)) = inl ConnectionError.
Proof.
  split; [|split; [|split; [|split]]].
  - destruct (request_info_outcome strptime_utc join_path sample_dir
                "/v2/valoresParametros/modos" None None
                (start fresh_store accepting) JNull
                (bearer "Bearer tok-cached")) as (H & _);
      [reflexivity|vm_compute; reflexivity|vm_compute; reflexivity|].
    rewrite H. vm_compute; reflexivity.
  - destruct (request_info_outcome strptime_utc join_path sample_dir
                "/v2/valoresParametros/modos" None None
                (start fresh_store missing) JNull
                (bearer "Bearer tok-cached")) as (H & _);
      [reflexivity|vm_compute; reflexivity|vm_compute; reflexivity|].
    rewrite H. vm_compute; reflexivity.
  - destruct (request_info_outcome strptime_utc join_path sample_dir
                "/v2/valoresParametros/modos" None None
                (start fresh_store garbled) JNull
                (bearer "Bearer tok-cached")) as (H & _);
      [reflexivity|vm_compute; reflexivity|vm_compute; reflexivity|].
    rewrite H. vm_compute; reflexivity.
  - destruct (request_info_outcome strptime_utc join_path sample_dir
                "/v2/valoresParametros/modos" None None
                (start fresh_store mojibake) JNull
                (bearer "Bearer tok-cached")) as (H & _);
      [reflexivity|vm_compute; reflexivity|vm_compute; reflexivity|].
    rewrite H. vm_compute; reflexivity.
  - destruct (request_info_outcome strptime_utc join_path sample_dir
                "/v2/valoresParametros/modos" None None
                (start fresh_store unreachable) JNull
                (bearer "Bearer tok-cached")) as (H & _);
      [reflexivity|vm_compute; reflexivity|vm_compute; reflexivity|].
    rewrite H. vm_compute; reflexivity.
Defined.

Lemma bearer_needs_string_token_witness :
  fst (info (Some "/v2/valoresParametros/modos") None None
            (start numeric_store accepting)) = inl TypeError
  /\ sent (snd (info (Some "/v2/valoresParametros/modos") None None
                     (start numeric_store accepting))) = []
  /\ fst (file (Some "/v2/download") (Some []) None None None None
               (start numeric_store accepting)) = inl TypeError.
Proof.
  destruct (bearer_needs_string_token strptime_utc join_path sample_dir
              "/v2/valoresParametros/modos" None None None None None
              (start numeric_store accepting) JNull) as (H1 & _).
  - reflexivity.
  - reflexivity.
  - vm_compute; reflexivity.
  - intros t. vm_compute. discriminate.
  - destruct (bearer_needs_string_token strptime_utc join_path sample_dir
                "/v2/download" (Some []) None None None None
                (start numeric_store accepting) JNull) as (_ & H2).
    + reflexivity.
    + reflexivity.
    + vm_compute; reflexivity.
    + intros t. vm_compute. discriminate.
    + rewrite H1, H2. repeat split; vm_compute; reflexivity.
Defined.

Lemma request_file_saves_on_demand_witness :
  (fst (file (Some "/v2/download") None None (Some true) (Some "map.zip")
             (Some "/data") (start fresh_store archive)) = inr JNull
   /\ files (snd (file (Some "/v2/download") None None (Some true)
                       (Some "map.zip") (Some "/data")
                       (start fresh_store archive)))
      !! "/data/map.zip" = Some (Binary zip_bytes))
  /\ (fst (file (Some "/v2/download") None None (Some true) (Some "map.zip")
                (Some "/missing") (start fresh_store archive))
      = inl FileNotFoundError
      /\ files (snd (file (Some "/v2/download") None None (Some true)
                          (Some "map.zip") (Some "/missing")
                          (start fresh_store archive)))
         = fresh_store)
  /\ fst (file (Some "/v2/download") None None (Some true) None
               (Some "/data") (start fresh_store archive))
     = inl TypeError
  /\ files (snd (file (Some "/v2/download") None None (Some false)
                      (Some "map.zip") (Some "/data")
                      (start fresh_store archive)))
     = fresh_store.
Proof.
  split; [|split; [|split]].
  - pose proof (request_file_saves_on_demand strptime_utc join_path
                  sample_dir "/v2/download" None None (Some true)
                  (Some "map.zip") (Some "/data")
                  (start fresh_store archive) JNull
                  (bearer "Bearer tok-cached")
                  (mk_response 200 (Binary zip_bytes))) as H.
    destruct H as (H1 & H2);
      [reflexivity|vm_compute; reflexivity|vm_compute; reflexivity
      |vm_compute; reflexivity|simpl; lia|].
    split; [exact H1|]. rewrite H2. vm_compute; reflexivity.
  - pose proof (request_file_saves_on_demand strptime_utc join_path
                  sample_dir "/v2/download" None None (Some true)
                  (Some "map.zip") (Some "/missing")
                  (start fresh_store archive) JNull
                  (bearer "Bearer tok-cached")
                  (mk_response 200 (Binary zip_bytes))) as H.
    destruct H as (H1 & H2);
      [reflexivity|vm_compute; reflexivity|vm_compute; reflexivity
      |vm_compute; reflexivity|simpl; lia|].
    split; [exact H1|]. rewrite H2. vm_compute; reflexivity.
  - pose proof (request_file_saves_on_demand strptime_utc join_path
                  sample_dir "/v2/download" None None (Some true)
                  None (Some "/data")
                  (start fresh_store archive) JNull
                  (bearer "Bearer tok-cached")
                  (mk_response 200 (Binary zip_bytes))) as H.
    destruct H as (H1 & _);
      [reflexivity|vm_compute; reflexivity|vm_compute; reflexivity
      |vm_compute; reflexivity|simpl; lia|].
    exact H1.
  - pose proof (request_file_saves_on_demand strptime_utc join_path
                  sample_dir "/v2/download" None None (Some false)
                  (Some "map.zip") (Some "/data")
                  (start fresh_store archive) JNull
                  (bearer "Bearer tok-cached")
                  (mk_response 200 (Binary zip_bytes))) as H.
    destruct H as (_ & H2);
      [reflexivity|vm_compute; reflexivity|vm_compute; reflexivity
      |vm_compute; reflexivity|simpl; lia|].
    rewrite H2. vm_compute; reflexivity.
Defined.

Lemma requests_keep_login_data_witness :
  login_data (snd (info (Some "/v2/valoresParametros/modos") None None
                        (later accepting))) = miguel_login
  /\ In (token_request miguel_login standard_headers (VBool true))
        (issued (info (Some "/v2/valoresParametros/modos") None None)
                (later accepting))
  /\ rq_json (token_request miguel_login standard_headers (VBool true))
     = login_data (later accepting).
Proof.
  assert (Hin : In (token_request miguel_login standard_headers (VBool true))
                   (issued (info (Some "/v2/valoresParametros/modos")
                                 None None)
                           (later accepting)))
    by (vm_compute; left; reflexivity).
  destruct (requests_keep_login_data strptime_utc join_path sample_dir
              (Some "/v2/valoresParametros/modos") None None None None None
              (later accepting)
              (token_request miguel_login standard_headers (VBool true)))
    as (H1 & _ & H3).
  split; [exact H1|]. split; [exact Hin|].
  apply H3; [left; exact Hin|reflexivity].
Defined.

Lemma get_id_ignores_what_follows_witness :
  get_id "Mensal" modes = inr (JStr "2")
  /\ get_id "Mensal"
       (JArr [JObj [("id", JStr "1"); ("descricao", JStr "Diario")];
              JObj [("descricao", JStr "Mensal")];
              JNull])
     = inl (KeyError "id").
Proof.
  split.
  - refine (get_id_ignores_what_follows "Mensal"
              [JObj [("id", JStr "1"); ("descricao", JStr "Diario")]]
              [JObj [("id", JStr "3"); ("descricao", JStr "Mensal")]]
              (JObj [("id", JStr "2"); ("descricao", JStr "Mensal")])
              (JStr "Mensal") _ _ _);
      try reflexivity.
    constructor; [|constructor].
    exists (JStr "Diario"). split; reflexivity.
  - refine (get_id_ignores_what_follows "Mensal"
              [JObj [("id", JStr "1"); ("descricao", JStr "Diario")]]
              [JNull]
              (JObj [("descricao", JStr "Mensal")])
              (JStr "Mensal") _ _ _);
      try reflexivity.
    constructor; [|constructor].
    exists (JStr "Diario"). split; reflexivity.
Defined.

Lemma get_id_stops_at_malformed_entry_witness :
  get_id "Mensal"
    (JArr [JObj [("id", JStr "1"); ("descricao", JStr "Diario")];
           JObj [("id", JStr "9")];
           JObj [("id", JStr "2"); ("descricao", JStr "Mensal")]])
  = inl (KeyError "descricao")
  /\ get_id "Mensal"
       (JArr [JNull;
              JObj [("id", JStr "2"); ("descricao", JStr "Mensal")]])
     = inl TypeError.
Proof.
  split.
  - refine (get_id_stops_at_malformed_entry "Mensal"
              [JObj [("id", JStr "1"); ("descricao", JStr "Diario")]]
              [JObj [("id", JStr "2"); ("descricao", JStr "Mensal")]]
              (JObj [("id", JStr "9")]) (KeyError "descricao") _ _);
      try reflexivity.
    constructor; [|constructor].
    exists (JStr "Diario"). split; reflexivity.
  - refine (get_id_stops_at_malformed_entry "Mensal" []
              [JObj [("id", JStr "2"); ("descricao", JStr "Mensal")]]
              JNull TypeError _ _);
      [constructor|reflexivity].
Defined.

Lemma get_id_of_item_without_endpoint_witness :
  fst (get_id_of_item strptime_utc join_path sample_dir "Mensal" ""
                      (start fresh_store accepting)) = inl TypeError
  /\ sent (snd (get_id_of_item strptime_utc join_path sample_dir "Mensal" ""
                               (start fresh_store accepting))) = [].
Proof.
  rewrite (get_id_of_item_without_endpoint strptime_utc join_path sample_dir
             "Mensal" (start fresh_store accepting) JNull).
  - split; vm_compute; reflexivity.
  - vm_compute; reflexivity.
Defined.

Lemma lookups_ask_their_endpoint_witness :
  In (data_request "/v2/valoresParametros/mapas"
                   (bearer "Bearer tok-cached") (VBool true))
     (issued (get_id_of_precipitation_source strptime_utc join_path
                sample_dir "ETA")
             (start fresh_store accepting))
  /\ rq_url (data_request "/v2/valoresParametros/mapas"
                          (bearer "Bearer tok-cached") (VBool true))
     = "https://api.pluvia.app/v2/valoresParametros/mapas".
Proof.
  assert (Hin : In (data_request "/v2/valoresParametros/mapas"
                                 (bearer "Bearer tok-cached") (VBool true))
                   (issued (get_id_of_precipitation_source strptime_utc
                              join_path sample_dir "ETA")
                           (start fresh_store accepting)))
    by (vm_compute; left; reflexivity).
  split; [exact Hin|].
  destruct (lookups_ask_their_endpoint strptime_utc join_path sample_dir
              "ETA" (start fresh_store accepting)
              (data_request "/v2/valoresParametros/mapas"
                            (bearer "Bearer tok-cached") (VBool true))
              eq_refl) as (_ & H & _).
  destruct (H Hin) as (Hurl & _). exact Hurl.
Defined.
